(** * A todo list over MongoDB: the REST handlers of [server.js] and the
      [TodoManager] of [js/main.js]

    The Express handlers are embedded as functions from the server state to
    a response and a new server state.  Mongoose and the JavaScript runtime
    are not part of the repository: the calls the handlers make into them
    ([Todo.find().sort()], [new Todo], [save], [findByIdAndUpdate],
    [findByIdAndDelete], [ObjectId.isValid], [new Date], [String.trim]) are
    modelled from their documented behaviour, and the parts that depend on
    the installed version (the textual form of an ObjectId, date parsing)
    are fields of the class [Runtime]. *)

From Stdlib Require Import List String Ascii ZArith NArith Bool Lia.
From Stdlib Require Import Permutation Sorted.
From Stdlib Require QArith.
Import ListNotations.
Local Open Scope string_scope.
Local Open Scope list_scope.

(** ** JavaScript values *)

Module JS.

(** A value produced by [JSON.parse]: what [body-parser] puts in [req.body]
    and what [response.json()] yields in the browser. *)
#[local] Set Warnings "-register-all".
Inductive json : Type :=
| JNull
| JBool (b : bool)
| JNum (q : QArith_base.Q)
| JStr (s : string)
| JArr (l : list json)
| JObj (l : list (string * json)).

(** A property read: [None] is [undefined] (the property is absent). *)
Definition value : Type := option json.

(** [!!v]: [undefined], [null], [false], [0] and the empty string are falsy. *)
Definition truthy (v : value) : bool :=
  match v with
  | None => false
  | Some JNull => false
  | Some (JBool b) => b
  | Some (JNum q) => negb (QArith_base.Qeq_bool q (QArith_base.Qmake 0 1))
  | Some (JStr s) => negb (s =? "")
  | Some (JArr _) => true
  | Some (JObj _) => true
  end.

(** White space in the sense of [String.prototype.trim], for the code
    units below 256: TAB, LF, VT, FF, CR, SP and NBSP. *)
Definition isWhiteSpace (c : ascii) : bool :=
  let n := N_of_ascii c in
  ((9 <=? n) && (n <=? 13) || (n =? 32) || (n =? 160))%N.

Fixpoint trimStart (s : string) : string :=
  match s with
  | EmptyString => EmptyString
  | String c r => if isWhiteSpace c then trimStart r else s
  end.

Fixpoint trimEnd (s : string) : string :=
  match s with
  | EmptyString => EmptyString
  | String c r =>
      match trimEnd r with
      | EmptyString => if isWhiteSpace c then EmptyString else String c EmptyString
      | r' => String c r'
      end
  end.

Definition trim (s : string) : string := trimEnd (trimStart s).

(** What a [catch (error)] clause of the handlers can receive. *)
Inductive jsError : Type :=
| TypeError                                  (* [v.trim] is not a function *)
| CastError (path : string)                  (* Mongoose could not cast a value *)
| ValidationError (paths : list string)      (* Mongoose validators failed *)
| MongoError (msg : string).                 (* the database rejected the command *)

(** A [Date] object: its time value in milliseconds, [None] for
    [Invalid Date]. *)
Definition Date : Type := option Z.

(** [v.trim()] on a value read from the request: only strings have the
    method, and reading it from [undefined] or [null] throws as well. *)
Definition String_trim (v : value) : jsError + string :=
  match v with
  | Some (JStr s) => inr (trim s)
  | _ => inl TypeError
  end.

(** [['pending', 'completed'].includes(v)] *)
Definition isStatus (s : string) : bool := (s =? "pending") || (s =? "completed").

Definition includes (v : json) : option string :=
  match v with
  | JStr s => if isStatus s then Some s else None
  | _ => None
  end.

End JS.
Import JS.

(** ** The Mongoose model [Todo] and the database behind it *)

Definition ObjectId : Type := nat.

(** The parts of Mongoose and of the JavaScript engine that the handlers
    call and whose results depend on the installed version. *)
Class Runtime : Type := {
  (** casting the [:id] path parameter to an ObjectId;
      [mongoose.Types.ObjectId.isValid] accepts what can be cast *)
  castObjectId : string -> option ObjectId;
  (** the [_id] of a document as [res.json] prints it *)
  toHexString : ObjectId -> string;
  (** [new Date(v)] for a value [v] of the request body *)
  newDate : json -> Date
}.

(** [new Date(v)] where [v] may be [undefined]: [new Date(undefined)] is
    [Invalid Date]. *)
Definition new_Date {R : Runtime} (v : value) : Date :=
  match v with
  | Some j => newDate j
  | None => None
  end.

Module Api.

(** A stored document of the collection (schema [todoSchema],
    [timestamps: true]). *)
Record Todo : Type := {
  _id : ObjectId;
  task : string;
  dueDate : Z;
  status : string;
  createdAt : Z;
  updatedAt : Z
}.

(** A document built by [new Todo({ task, dueDate })] and not saved yet. *)
Record Document : Type := {
  doc_id : ObjectId;
  doc_task : string;
  doc_dueDate : Date;
  doc_status : string
}.

(** Commands sent to the database. *)
Inductive Command : Type :=
| Find
| InsertOne (o : ObjectId)
| FindOneAndUpdate (o : ObjectId)
| FindOneAndDelete (o : ObjectId).

(** The state the handlers run in: the collection in insertion order, the
    ObjectId generator, the state of the connection ([Some msg]: the
    database rejects every command with the message [msg]) and the
    commands issued so far. *)
Record Server : Type := {
  todos : list Todo;
  nextId : ObjectId;
  conn : option string;
  issued : list Command
}.

Definition setTodos (l : list Todo) (s : Server) : Server :=
  {| todos := l; nextId := nextId s; conn := conn s; issued := issued s |}.

Definition issue (c : Command) (s : Server) : Server :=
  {| todos := todos s; nextId := nextId s; conn := conn s;
     issued := issued s ++ [c] |}.

(** An [await]ed computation: it resolves or rejects, and may change the
    server state in both cases. *)
Definition Async (A : Type) : Type := Server -> (jsError + A) * Server.

Definition resolve {A : Type} (a : A) : Async A := fun s => (inr a, s).

Definition reject {A : Type} (e : jsError) : Async A := fun s => (inl e, s).

Definition await {A B : Type} (m : Async A) (k : A -> Async B) : Async B :=
  fun s =>
    match m s with
    | (inl e, s') => (inl e, s')
    | (inr a, s') => k a s'
    end.

Definition lift {A : Type} (r : jsError + A) : Async A := fun s => (r, s).

Notation "x <- m ;; k" := (await m (fun x => k))
  (at level 61, m at next level, right associativity).

(** The request body after destructuring: each property is read once. *)
Module Req.
Record body : Type := {
  task : value;
  dueDate : value;
  status : value
}.
End Req.

(** The [updateData] object of the PUT handler. *)
Module Upd.
Record data : Type := {
  task : option string;
  dueDate : option Date;
  status : option string
}.
End Upd.

(** Response bodies, one constructor per shape passed to [res.json].  Where
    the source sends [error.message], the body keeps the error it was read
    from. *)
Inductive body : Type :=
| TodoList (l : list Todo)
| TodoDoc (t : Todo)
| Message (message : string)
| ErrorMessage (error : jsError)
| Details (message : string) (task dueDate : option string)
| Failed (message : string) (error : option jsError)
| Deleted (message : string) (deletedTodo : Todo).

Record response : Type := {
  statusCode : nat;
  payload : body
}.

(** [res.status(code).json(b)] *)
Definition res (code : nat) (b : body) : response :=
  {| statusCode := code; payload := b |}.

(** [try { ... } catch (error) { ... }] around a handler body. *)
Definition tryCatch (m : Async response) (handler : jsError -> response)
  : Server -> response * Server :=
  fun s =>
    match m s with
    | (inr r, s') => (r, s')
    | (inl e, s') => (handler e, s')
    end.

(** *** Sorting: [.sort({ dueDate: 1, createdAt: -1 })] *)

Definition sortKey_leb (a b : Todo) : bool :=
  (dueDate a <? dueDate b)%Z
  || ((dueDate a =? dueDate b)%Z && (createdAt b <=? createdAt a)%Z).

Fixpoint insertSorted (t : Todo) (l : list Todo) : list Todo :=
  match l with
  | [] => [t]
  | x :: r => if sortKey_leb t x then t :: l else x :: insertSorted t r
  end.

Fixpoint sortTodos (l : list Todo) : list Todo :=
  match l with
  | [] => []
  | t :: r => insertSorted t (sortTodos r)
  end.

(** *** Single-document operations on the collection *)

Fixpoint updateOne (o : ObjectId) (f : Todo -> Todo) (l : list Todo)
  : option (Todo * list Todo) :=
  match l with
  | [] => None
  | t :: r =>
      if Nat.eqb (_id t) o then Some (f t, f t :: r)
      else match updateOne o f r with
           | Some (t', r') => Some (t', t :: r')
           | None => None
           end
  end.

Fixpoint deleteOne (o : ObjectId) (l : list Todo) : option (Todo * list Todo) :=
  match l with
  | [] => None
  | t :: r =>
      if Nat.eqb (_id t) o then Some (t, r)
      else match deleteOne o r with
           | Some (t', r') => Some (t', t :: r')
           | None => None
           end
  end.

(** [$set] of the fields of [updateData], with [updatedAt] stamped by
    [timestamps: true]. *)
Definition applyUpdate (now : Z) (task : option string) (dueDate : option Z)
  (status : option string) (t : Todo) : Todo :=
  {| _id := _id t;
     task := match task with Some x => x | None => Api.task t end;
     dueDate := match dueDate with Some d => d | None => Api.dueDate t end;
     status := match status with Some x => x | None => Api.status t end;
     createdAt := createdAt t;
     updatedAt := now |}.

(** The database end of a command: it is recorded, then rejected when the
    connection is failing. *)
Definition command {A : Type} (c : Command) (exec : Server -> A * Server)
  : Async A :=
  fun s =>
    let s1 := issue c s in
    match conn s with
    | Some msg => (inl (MongoError msg), s1)
    | None => let (a, s2) := exec s1 in (inr a, s2)
    end.

Section Model.
Context {R : Runtime}.

(** [mongoose.Types.ObjectId.isValid(id)] *)
Definition ObjectId_isValid (id : string) : bool :=
  match castObjectId id with
  | Some _ => true
  | None => false
  end.

(** [Todo.find().sort({ dueDate: 1, createdAt: -1 }).exec()] *)
Definition find_sort : Async (list Todo) :=
  command Find (fun s => (sortTodos (todos s), s)).

(** [new Todo({ task, dueDate })]: a fresh [_id], the [trim] setter of the
    schema on [task], the default [status]. *)
Definition new_Todo (task : string) (dueDate : Date) : Async Document :=
  fun s =>
    (inr {| doc_id := nextId s;
            doc_task := trim task;
            doc_dueDate := dueDate;
            doc_status := "pending" |},
     {| todos := todos s; nextId := S (nextId s); conn := conn s;
        issued := issued s |}).

(** [todo.save()]: the [required] validators of [task] and [dueDate] run
    first (an empty string and a date that could not be cast fail them),
    then the document is inserted with both timestamps. *)
Definition save (now : Z) (d : Document) : Async Todo :=
  match doc_dueDate d with
  | None =>
      reject (ValidationError
                (if doc_task d =? "" then ["task"; "dueDate"] else ["dueDate"]))
  | Some due =>
      if doc_task d =? "" then reject (ValidationError ["task"])
      else
        let t := {| _id := doc_id d; task := doc_task d; dueDate := due;
                    status := doc_status d; createdAt := now;
                    updatedAt := now |} in
        command (InsertOne (doc_id d))
                (fun s => (t, setTodos (todos s ++ [t]) s))
  end.

(** [Todo.findByIdAndUpdate(id, updateData, { new: true, runValidators:
    true, context: 'query' })]: the update is cast (the [trim] setter, the
    date), the validators of the paths it sets run, then the first document
    with this [_id] is replaced and returned; [null] when there is none. *)
Definition findByIdAndUpdate (now : Z) (id : string) (u : Upd.data)
  : Async (option Todo) :=
  match castObjectId id with
  | None => reject (CastError "_id")
  | Some o =>
      match Upd.dueDate u with
      | Some None => reject (CastError "dueDate")
      | due =>
          let task := option_map trim (Upd.task u) in
          let due := match due with Some d => d | None => None end in
          if match task with Some x => x =? "" | None => false end
          then reject (ValidationError ["task"])
          else if match Upd.status u with
                  | Some x => negb (isStatus x)
                  | None => false
                  end
          then reject (ValidationError ["status"])
          else
            command (FindOneAndUpdate o)
              (fun s =>
                 match updateOne o (applyUpdate now task due (Upd.status u))
                                 (todos s) with
                 | Some (t, l) => (Some t, setTodos l s)
                 | None => (None, s)
                 end)
      end
  end.

(** [Todo.findByIdAndDelete(id)] *)
Definition findByIdAndDelete (id : string) : Async (option Todo) :=
  match castObjectId id with
  | None => reject (CastError "_id")
  | Some o =>
      command (FindOneAndDelete o)
        (fun s =>
           match deleteOne o (todos s) with
           | Some (t, l) => (Some t, setTodos l s)
           | None => (None, s)
           end)
  end.

(** ** The handlers of [server.js] *)

(** [app.get('/todos', ...)] *)
Definition getTodos : Server -> response * Server :=
  tryCatch
    (todos <- find_sort ;;
     resolve (res 200 (TodoList todos)))
    (fun error => res 500 (ErrorMessage error)).

(** [app.post('/todos', ...)] *)
Definition postTodo (now : Z) (b : Req.body) : Server -> response * Server :=
  tryCatch
    (let task := Req.task b in
     let dueDate := Req.dueDate b in
     if negb (truthy task) || negb (truthy dueDate) then
       resolve (res 400 (Details "Task and due date are required"
         (if negb (truthy task) then Some "Task is required" else None)
         (if negb (truthy dueDate) then Some "Due date is required" else None)))
     else
       trimmed <- lift (String_trim task) ;;
       todo <- new_Todo trimmed (new_Date dueDate) ;;
       savedTodo <- save now todo ;;
       resolve (res 201 (TodoDoc savedTodo)))
    (fun error => res 500 (Failed "Failed to create todo" (Some error))).

(** [app.put('/todos/:id', ...)].  The two [return]s inside the [try]
    block are the two [resolve]s with status 400; [update] is the code that
    follows the three [if]s on the body. *)
Definition putTodo (now : Z) (id : string) (b : Req.body)
  : Server -> response * Server :=
  tryCatch
    (let task := Req.task b in
     let dueDate := Req.dueDate b in
     let status := Req.status b in
     if negb (ObjectId_isValid id) then
       resolve (res 400 (Message "Invalid todo ID format"))
     else
       updateData_task <-
         lift (match task with
               | Some _ =>
                   match String_trim task with
                   | inr x => inr (Some x)
                   | inl e => inl e
                   end
               | None => inr None
               end) ;;
       let updateData_dueDate :=
         match dueDate with
         | Some _ => Some (new_Date dueDate)
         | None => None
         end in
       let update (updateData_status : option string) : Async response :=
         updatedTodo <- findByIdAndUpdate now id
           {| Upd.task := updateData_task;
              Upd.dueDate := updateData_dueDate;
              Upd.status := updateData_status |} ;;
         match updatedTodo with
         | None => resolve (res 404 (Message "Todo not found"))
         | Some t => resolve (res 200 (TodoDoc t))
         end in
       match status with
       | Some v =>
           match includes v with
           | None => resolve (res 400 (Message "Invalid status value"))
           | Some x => update (Some x)
           end
       | None => update None
       end)
    (fun error => res 500 (Failed "Failed to update todo" (Some error))).

(** [app.delete('/todos/:id', ...)] *)
Definition deleteTodo (id : string) : Server -> response * Server :=
  tryCatch
    (if negb (ObjectId_isValid id) then
       resolve (res 400 (Message "Invalid todo ID format"))
     else
       deletedTodo <- findByIdAndDelete id ;;
       match deletedTodo with
       | None => resolve (res 404 (Message "Todo not found"))
       | Some t => resolve (res 200 (Deleted "Todo deleted successfully" t))
       end)
    (fun error => res 500 (Failed "Failed to delete todo" (Some error))).

(** The error-handling middleware, [app.use((err, req, res, next) => ...)],
    with the value of [process.env.NODE_ENV]. *)
Definition errorMiddleware (NODE_ENV : option string) (err : jsError)
  : response :=
  res 500 (Failed "Internal server error"
             (match NODE_ENV with
              | Some mode => if mode =? "development" then Some err else None
              | None => None
              end)).

(** *** The running server *)

(** A request to one of the four routes, with the time at which the
    handler runs where it stamps one. *)
Inductive Request : Type :=
| GET_todos
| POST_todos (now : Z) (b : Req.body)
| PUT_todos (now : Z) (id : string) (b : Req.body)
| DELETE_todos (id : string).

Definition route (r : Request) : Server -> response * Server :=
  match r with
  | GET_todos => getTodos
  | POST_todos now b => postTodo now b
  | PUT_todos now id b => putTodo now id b
  | DELETE_todos id => deleteTodo id
  end.

(** What happens to the server between two states: it handles a request,
    or the connection to the database breaks or comes back. *)
Inductive Event : Type :=
| Handled (r : Request)
| Disconnected (msg : string)
| Reconnected.

Definition after (e : Event) (s : Server) : Server :=
  match e with
  | Handled r => snd (route r s)
  | Disconnected msg =>
      {| todos := todos s; nextId := nextId s; conn := Some msg;
         issued := issued s |}
  | Reconnected =>
      {| todos := todos s; nextId := nextId s; conn := None;
         issued := issued s |}
  end.

Definition afterAll (es : list Event) (s : Server) : Server :=
  fold_left (fun s e => after e s) es s.

End Model.
End Api.

(** ** The browser side: [TodoManager] of [js/main.js] *)

Module Client.

(** A task as the browser holds it after [response.json()]: the [_id] is
    the printed ObjectId; the dates travel as ISO strings and are kept here
    by their time value. *)
Record Todo : Type := {
  _id : string;
  task : string;
  dueDate : Z;
  status : string;
  createdAt : Z;
  updatedAt : Z
}.

(** What [res.json(todo)] sends for a stored document. *)
Definition toJSON {R : Runtime} (t : Api.Todo) : Todo :=
  {| _id := toHexString (Api._id t);
     task := Api.task t;
     dueDate := Api.dueDate t;
     status := Api.status t;
     createdAt := Api.createdAt t;
     updatedAt := Api.updatedAt t |}.

(** The [TodoManager] object ([this.todos]) together with the server that
    answers at [this.baseUrl]; [fetch] delivers the request and the reply. *)
Record World : Type := {
  todos : list Todo;
  server : Api.Server
}.

Inductive Error : Type := mkError (message : string).

(** [response.ok] *)
Definition ok (r : Api.response) : bool :=
  (200 <=? Api.statusCode r)%nat && (Api.statusCode r <=? 299)%nat.

(** [this.todos.findIndex(p)], [None] for [-1]. *)
Fixpoint findIndex (p : Todo -> bool) (l : list Todo) : option nat :=
  match l with
  | [] => None
  | t :: r =>
      if p t then Some 0%nat
      else match findIndex p r with
           | Some i => Some (S i)
           | None => None
           end
  end.

(** [l[i] = x] for an index inside the array. *)
Fixpoint assign (i : nat) (x : Todo) (l : list Todo) : list Todo :=
  match l, i with
  | [], _ => []
  | _ :: r, O => x :: r
  | t :: r, S j => t :: assign j x r
  end.

Section Manager.
Context {R : Runtime}.

(** [async toggleTodoStatus(id)].  The reply of a successful PUT carries
    the updated document (lemma [putTodo_ok_payload]); the last branch
    stands for a reply of another shape and is never taken. *)
Definition toggleTodoStatus (now : Z) (id : string) (w : World)
  : (Error + Todo) * World :=
  match find (fun t => _id t =? id) (todos w) with
  | None => (inl (mkError "Todo not found"), w)
  | Some todo =>
      let (response, srv) :=
        Api.putTodo now id
          {| Api.Req.task := None;
             Api.Req.dueDate := None;
             Api.Req.status :=
               Some (JStr (if status todo =? "pending" then "completed"
                           else "pending")) |}
          (server w) in
      if negb (ok response) then
        (inl (mkError "Failed to update todo status"),
         {| todos := todos w; server := srv |})
      else
        match Api.payload response with
        | Api.TodoDoc t =>
            let updated := toJSON t in
            let todos' :=
              match findIndex (fun t => _id t =? id) (todos w) with
              | Some index => assign index updated (todos w)
              | None => todos w
              end in
            (inr updated, {| todos := todos'; server := srv |})
        | _ =>
            (inl (mkError "Failed to update todo status"),
             {| todos := todos w; server := srv |})
        end
  end.

End Manager.

(** The text of [error.message] for an error caught by a handler; it is
    chosen by the engine and by Mongoose. *)
Class ErrorText : Type := {
  messageText : jsError -> string
}.

Section Requests.
Context {R : Runtime} {E : ErrorText}.

(** [errorData.message], where [errorData] is the body of a reply: the
    documents and the array of documents have no such property. *)
Definition errorData_message (b : Api.body) : option string :=
  match b with
  | Api.TodoList _ => None
  | Api.TodoDoc _ => None
  | Api.Message m => Some m
  | Api.ErrorMessage e => Some (messageText e)
  | Api.Details m _ _ => Some m
  | Api.Failed m _ => Some m
  | Api.Deleted m _ => Some m
  end.

(** [message || fallback] *)
Definition orElse (message : option string) (fallback : string) : string :=
  match message with
  | Some m => if m =? "" then fallback else m
  | None => fallback
  end.

(** [async getTodos()].  What is thrown inside the [try] block is caught
    by its own [catch], which throws the same error for every cause.  A
    reply with a 2xx status carries the array of documents (lemma
    [getTodos_ok_payload]); the branch for another shape is never taken. *)
Definition getTodos (w : World) : (Error + list Todo) * World :=
  let (response, srv) := Api.getTodos (server w) in
  let attempt : Error + list Todo :=
    if negb (ok response) then
      inl (mkError (orElse (errorData_message (Api.payload response))
                           "Failed to fetch todos"))
    else
      match Api.payload response with
      | Api.TodoList l => inr (map toJSON l)
      | _ => inl (mkError "Failed to fetch todos")
      end in
  match attempt with
  | inr todos => (inr todos, {| todos := todos; server := srv |})
  | inl error =>
      (inl (mkError "Network error or server is not running"),
       {| todos := todos w; server := srv |})
  end.

(** [async addTodo(task, dueDate)]; [JSON.stringify] leaves an
    [undefined] argument out of the body. *)
Definition addTodo (now : Z) (task dueDate : value) (w : World)
  : (Error + Todo) * World :=
  let (response, srv) :=
    Api.postTodo now
      {| Api.Req.task := task; Api.Req.dueDate := dueDate;
         Api.Req.status := None |}
      (server w) in
  if negb (ok response) then
    (inl (mkError (orElse (errorData_message (Api.payload response))
                          "Failed to add todo")),
     {| todos := todos w; server := srv |})
  else
    match Api.payload response with
    | Api.TodoDoc t =>
        let newTodo := toJSON t in
        (inr newTodo, {| todos := todos w ++ [newTodo]; server := srv |})
    | _ =>
        (inl (mkError "Failed to add todo"),
         {| todos := todos w; server := srv |})
    end.

(** [async deleteTodo(id)] *)
Definition deleteTodo (id : string) (w : World) : (Error + unit) * World :=
  let (response, srv) := Api.deleteTodo id (server w) in
  if negb (ok response) then
    (inl (mkError "Failed to delete todo"),
     {| todos := todos w; server := srv |})
  else
    (inr tt,
     {| todos := filter (fun todo => negb (_id todo =? id)) (todos w);
        server := srv |}).

(** [async editTodo(id, task, dueDate)] *)
Definition editTodo (now : Z) (id : string) (task dueDate : value) (w : World)
  : (Error + Todo) * World :=
  let (response, srv) :=
    Api.putTodo now id
      {| Api.Req.task := task; Api.Req.dueDate := dueDate;
         Api.Req.status := None |}
      (server w) in
  if negb (ok response) then
    (inl (mkError (orElse (errorData_message (Api.payload response))
                          "Failed to edit todo")),
     {| todos := todos w; server := srv |})
  else
    match Api.payload response with
    | Api.TodoDoc t =>
        let updatedTodo := toJSON t in
        let todos' :=
          match findIndex (fun t => _id t =? id) (todos w) with
          | Some index => assign index updatedTodo (todos w)
          | None => todos w
          end in
        (inr updatedTodo, {| todos := todos'; server := srv |})
    | _ =>
        (inl (mkError "Failed to edit todo"),
         {| todos := todos w; server := srv |})
    end.




End Requests.

(** What [fetch] does with a request: it delivers it and resolves with the
    reply of the server, or it rejects with an error of the browser
    because the request cannot be sent (the server is not running, the
    network is down).  A reply that is lost after the server has handled
    the request is not modelled. *)
Inductive Fetch : Type :=
| Delivered
| Rejected (error : Error).

Section Network.
Context {R : Runtime} {E : ErrorText}.

(** [async getTodos()] with the outcome of its [fetch]: the [catch]
    replaces the error of a rejected [fetch] as it replaces every other. *)
Definition getTodosVia (net : Fetch) (w : World)
  : (Error + list Todo) * World :=
  match net with
  | Delivered => getTodos w
  | Rejected _ =>
      (inl (mkError "Network error or server is not running"), w)
  end.

(** [async addTodo(task, dueDate)] with the outcome of its [fetch]: the
    [catch] throws the error of a rejected [fetch] again. *)
Definition addTodoVia (net : Fetch) (now : Z) (task dueDate : value)
  (w : World) : (Error + Todo) * World :=
  match net with
  | Delivered => addTodo now task dueDate w
  | Rejected error => (inl error, w)
  end.






End Network.
End Client.

(** ** The page: [UIManager] and the global functions of [js/main.js] *)

Module UI.

(** The parts of the page that the code reads and writes: the values of
    the two inputs of the form, the rows of the table (a row stands for
    the task it was drawn from) and the alerts shown so far, each with its
    message and type; then the manager and the server behind it. *)
Record Page : Type := {
  taskInput : string;
  dateInput : string;
  rows : list Client.Todo;
  alerts : list (string * string);
  world : Client.World
}.

(** [showAlertMessage(message, type)]; the timer that removes the alert
    after three seconds is left out. *)
Definition showAlertMessage (message type : string) (p : Page) : Page :=
  {| taskInput := taskInput p; dateInput := dateInput p; rows := rows p;
     alerts := alerts p ++ [(message, type)]; world := world p |}.

(** [displayTodos(todos)]: the table body is emptied and gets one row per
    task, in the order of [todos]. *)
Definition displayTodos (todos : list Client.Todo) (p : Page) : Page :=
  {| taskInput := taskInput p; dateInput := dateInput p; rows := todos;
     alerts := alerts p; world := world p |}.

Definition setWorld (w : Client.World) (p : Page) : Page :=
  {| taskInput := taskInput p; dateInput := dateInput p; rows := rows p;
     alerts := alerts p; world := w |}.

(** [this.taskInput.value = ""; this.dateInput.value = "";] *)
Definition clearInputs (p : Page) : Page :=
  {| taskInput := ""; dateInput := ""; rows := rows p;
     alerts := alerts p; world := world p |}.

(** [err.message || fallback] *)
Definition messageOr (error : Client.Error) (fallback : string) : string :=
  match error with
  | Client.mkError m => if m =? "" then fallback else m
  end.

Section Handlers.
Context {R : Runtime} {E : Client.ErrorText}.

(** [init()], after the listener is registered. *)
Definition init (p : Page) : Page :=
  match Client.getTodos (world p) with
  | (inr todos, w) => displayTodos todos (setWorld w p)
  | (inl (Client.mkError m), w) => showAlertMessage m "error" (setWorld w p)
  end.

(** [async handleAddTodo()] *)
Definition handleAddTodo (now : Z) (p : Page) : Page :=
  let task := trim (taskInput p) in
  let dueDate := dateInput p in
  if (task =? "") || (dueDate =? "") then
    showAlertMessage "Please enter both task and due date" "error" p
  else
    match Client.addTodo now (Some (JStr task)) (Some (JStr dueDate))
                         (world p) with
    | (inr _, w) =>
        let p := clearInputs (setWorld w p) in
        match Client.getTodos w with
        | (inr todos, w) =>
            showAlertMessage "Task added successfully!" "success"
              (displayTodos todos (setWorld w p))
        | (inl err, w) =>
            showAlertMessage (messageOr err "Failed to add task") "error"
              (setWorld w p)
        end
    | (inl err, w) =>
        showAlertMessage (messageOr err "Failed to add task") "error"
          (setWorld w p)
    end.

(** [async handleAddTodo()] with the outcomes of the two [fetch]es it can
    lead to, the one of [addTodo] and the one of [getTodos]. *)
Definition handleAddTodoVia (add refresh : Client.Fetch) (now : Z) (p : Page)
  : Page :=
  let task := trim (taskInput p) in
  let dueDate := dateInput p in
  if (task =? "") || (dueDate =? "") then
    showAlertMessage "Please enter both task and due date" "error" p
  else
    match Client.addTodoVia add now (Some (JStr task)) (Some (JStr dueDate))
                            (world p) with
    | (inr _, w) =>
        let p := clearInputs (setWorld w p) in
        match Client.getTodosVia refresh w with
        | (inr todos, w) =>
            showAlertMessage "Task added successfully!" "success"
              (displayTodos todos (setWorld w p))
        | (inl err, w) =>
            showAlertMessage (messageOr err "Failed to add task") "error"
              (setWorld w p)
        end
    | (inl err, w) =>
        showAlertMessage (messageOr err "Failed to add task") "error"
          (setWorld w p)
    end.

(** [async handleEditTodo(id, task, dueDate)] *)
Definition handleEditTodo (now : Z) (id task dueDate : string) (p : Page)
  : Page :=
  match Client.editTodo now id (Some (JStr task)) (Some (JStr dueDate))
                        (world p) with
  | (inr _, w) =>
      match Client.getTodos w with
      | (inr todos, w) =>
          showAlertMessage "Task updated successfully!" "success"
            (displayTodos todos (setWorld w p))
      | (inl _, w) =>
          showAlertMessage "Failed to update task" "error" (setWorld w p)
      end
  | (inl _, w) =>
      showAlertMessage "Failed to update task" "error" (setWorld w p)
  end.

(** [window.toggleStatus = async (id) => ...] *)
Definition toggleStatus (now : Z) (id : string) (p : Page) : Page :=
  match Client.toggleTodoStatus now id (world p) with
  | (inr _, w) =>
      match Client.getTodos w with
      | (inr todos, w) => displayTodos todos (setWorld w p)
      | (inl _, w) =>
          showAlertMessage "Failed to toggle status" "error" (setWorld w p)
      end
  | (inl _, w) =>
      showAlertMessage "Failed to toggle status" "error" (setWorld w p)
  end.

(** [window.deleteTask = async (id) => ...] *)
Definition deleteTask (id : string) (p : Page) : Page :=
  match Client.deleteTodo id (world p) with
  | (inr _, w) =>
      match Client.getTodos w with
      | (inr todos, w) =>
          showAlertMessage "Task deleted successfully" "success"
            (displayTodos todos (setWorld w p))
      | (inl _, w) =>
          showAlertMessage "Failed to delete task" "error" (setWorld w p)
      end
  | (inl _, w) =>
      showAlertMessage "Failed to delete task" "error" (setWorld w p)
  end.

(** [window.saveEdit = async (id, buttonElement) => ...], with the values
    of the two inputs of the edit form. *)
Definition saveEdit (now : Z) (id text date : string) (p : Page) : Page :=
  let newTask := trim text in
  let newDueDate := date in
  if (newTask =? "") || (newDueDate =? "") then
    showAlertMessage "Please enter both task and due date" "error" p
  else handleEditTodo now id newTask newDueDate p.

(** What the user does on the page. *)
Inductive Action : Type :=
| Load
| ClickAdd (now : Z)
| ClickToggle (now : Z) (id : string)
| ClickDelete (id : string)
| ClickSave (now : Z) (id text date : string).

Definition act (a : Action) (p : Page) : Page :=
  match a with
  | Load => init p
  | ClickAdd now => handleAddTodo now p
  | ClickToggle now id => toggleStatus now id p
  | ClickDelete id => deleteTask id p
  | ClickSave now id text date => saveEdit now id text date p
  end.

End Handlers.
End UI.

(** ** A runtime for the examples *)

Module Sample.

Definition hexDigit (c : ascii) : option nat :=
  let n := nat_of_ascii c in
  (if (48 <=? n) && (n <=? 57) then Some (n - 48)
   else if (97 <=? n) && (n <=? 102) then Some (n - 87)
   else if (65 <=? n) && (n <=? 70) then Some (n - 55)
   else None)%nat.

Fixpoint hexValue (acc : nat) (s : string) : option nat :=
  match s with
  | EmptyString => Some acc
  | String c r =>
      match hexDigit c with
      | Some d => hexValue (16 * acc + d) r
      | None => None
      end
  end.

Definition digitHex (d : nat) : ascii :=
  ascii_of_nat (if d <? 10 then 48 + d else 87 + d)%nat.

Fixpoint hexOf (k n : nat) : string :=
  match k with
  | O => EmptyString
  | S k' => (hexOf k' (n / 16) ++ String (digitHex (n mod 16)) EmptyString)%string
  end.

(** ObjectIds are written as 24 hexadecimal digits.  [new Date] reads
    [null] and the booleans as their numeric value and a number as the
    time value it truncates to, inside the range of a [Date]; of the date
    strings this instance knows the calendar days used in the examples
    below, and it reads every other string, the arrays and the objects as
    [Invalid Date]. *)
#[export] Instance runtime : Runtime := {
  castObjectId s := if (length s =? 24)%nat then hexValue 0 s else None;
  toHexString o := hexOf 24 o;
  newDate v :=
    match v with
    | JNull => Some 0%Z
    | JBool b => Some (if b then 1 else 0)%Z
    | JNum q =>
        let t := Z.quot (QArith_base.Qnum q) (Zpos (QArith_base.Qden q)) in
        if (Z.abs t <=? 8640000000000000)%Z then Some t else None
    | JStr s =>
        if s =? "2025-01-10" then Some 1736467200000%Z
        else if s =? "2025-01-11" then Some 1736553600000%Z
        else None
    | JArr _ => None
    | JObj _ => None
    end
}.

Definition oid1 : string := "000000000000000000000001".

Definition buyMilk : Api.Todo :=
  {| Api._id := 1;
     Api.task := "Buy milk";
     Api.dueDate := 1736467200000;
     Api.status := "completed";
     Api.createdAt := 1736000000000;
     Api.updatedAt := 1736000000500 |}.

Definition callMum : Api.Todo :=
  {| Api._id := 2;
     Api.task := "Call mum";
     Api.dueDate := 1736467200000;
     Api.status := "pending";
     Api.createdAt := 1736100000000;
     Api.updatedAt := 1736100000000 |}.


Definition two : Api.Server :=
  {| Api.todos := [buyMilk; callMum]; Api.nextId := 3; Api.conn := None;
     Api.issued := [] |}.

Definition offline (msg : string) : Api.Server :=
  {| Api.todos := [buyMilk; callMum]; Api.nextId := 3; Api.conn := Some msg;
     Api.issued := [] |}.

Definition post (task dueDate : string) : Api.Req.body :=
  {| Api.Req.task := Some (JStr task);
     Api.Req.dueDate := Some (JStr dueDate);
     Api.Req.status := None |}.

(** Bodies of [PUT /todos/:id]. *)
Definition setStatus (status : string) : Api.Req.body :=
  {| Api.Req.task := None;
     Api.Req.dueDate := None;
     Api.Req.status := Some (JStr status) |}.



Definition oid9 : string := "000000000000000000000009".

(** A browser that has fetched the two tasks. *)
Definition browser : Client.World :=
  {| Client.todos := map Client.toJSON [buyMilk; callMum];
     Client.server := two |}.

(** The texts of the errors, for the examples. *)
#[export] Instance errorText : Client.ErrorText := {
  Client.messageText e :=
    match e with
    | TypeError => "task.trim is not a function"
    | CastError path => "Cast failed at path " ++ path
    | ValidationError _ => "Validation failed"
    | MongoError msg => msg
    end%string
}.

Definition numberedTask : Api.Req.body :=
  {| Api.Req.task := Some (JNum (QArith_base.Qmake 5 1));
     Api.Req.dueDate := Some (JStr "2025-01-10");
     Api.Req.status := None |}.

(** The page with the form filled in. *)
Definition form : UI.Page :=
  {| UI.taskInput := "  Water the plants ";
     UI.dateInput := "2025-01-11";
     UI.rows := [];
     UI.alerts := [];
     UI.world := browser |}.


(** A morning of the server. *)
Definition morning : list Api.Event :=
  [Api.Handled (Api.POST_todos 1736200000000 (post " Buy bread " "2025-01-11"));
   Api.Disconnected "connection refused";
   Api.Handled (Api.DELETE_todos oid1);
   Api.Reconnected;
   Api.Handled (Api.PUT_todos 1736300000000 "000000000000000000000002"
                  (setStatus "completed"))].

End Sample.

(** ** Vocabulary of the statements *)

Import Api.

(** [a] may stand before [b] in the listing: earlier due date, or the same
    due date and created no earlier. *)
Definition listedBefore (a b : Todo) : Prop :=
  (dueDate a < dueDate b)%Z
  \/ (dueDate a = dueDate b /\ createdAt b <= createdAt a)%Z.

(** No stored document has the ObjectId [o]. *)
Definition absent (o : ObjectId) (l : list Todo) : Prop :=
  forall t, In t l -> _id t <> o.

(** A well-formed server state: the [_id]s of the collection are pairwise
    distinct (the unique index on [_id]) and were all handed out by the
    generator. *)
Definition wf (s : Server) : Prop :=
  NoDup (map _id (todos s)) /\ Forall (fun t => _id t < nextId s) (todos s).

(** The record has the given text and due date. *)
Definition matches (text : string) (due : Z) (t : Todo) : bool :=
  (task t =? text) && (dueDate t =? due)%Z.

Definition hasId (o : ObjectId) (t : Todo) : bool := Nat.eqb (_id t) o.

(** The property is absent from the body or holds a string. *)
Definition textOrAbsent (v : value) : Prop :=
  v = None \/ exists x, v = Some (JStr x).

(** A body of PUT that passes the handler's checks, the casts and the
    update validators: a [task] that is not empty once trimmed, a
    [dueDate] that [new Date] can read, a [status] of the enumeration. *)
Definition acceptable {R : Runtime} (b : Req.body) : Prop :=
  (Req.task b = None \/ exists x, Req.task b = Some (JStr x) /\ trim x <> "")
  /\ (Req.dueDate b = None \/ exists d, new_Date (Req.dueDate b) = Some d)
  /\ (Req.status b = None
      \/ exists x, Req.status b = Some (JStr x) /\ isStatus x = true).

(** The fields a body of PUT sets, as they reach the collection. *)
Definition taskSet (b : Req.body) : option string :=
  match Req.task b with
  | Some (JStr x) => Some (trim x)
  | _ => None
  end.

Definition statusSet (b : Req.body) : option string :=
  match Req.status b with
  | Some (JStr x) => Some x
  | _ => None
  end.

Definition updateOf {R : Runtime} (now : Z) (b : Req.body) : Todo -> Todo :=
  applyUpdate now (taskSet b) (new_Date (Req.dueDate b)) (statusSet b).

(** The document [POST /todos] stores for the text [x] due at [d]. *)
Definition created (s : Server) (now : Z) (x : string) (d : Z) : Todo :=
  {| _id := nextId s; task := trim x; dueDate := d; status := "pending";
     createdAt := now; updatedAt := now |}.



(** The body [{ status }] that the toggle sends. *)
Definition statusOnly (y : string) : Req.body :=
  {| Req.task := None; Req.dueDate := None; Req.status := Some (JStr y) |}.


(** The status codes a route can answer with. *)
Definition codes (r : Request) : list nat :=
  match r with
  | GET_todos => [200; 500]
  | POST_todos _ _ => [201; 400; 500]
  | PUT_todos _ _ _ => [200; 400; 404; 500]
  | DELETE_todos _ => [200; 400; 404; 500]
  end.

(** A body of POST from which a record can be made: a [task] that is a
    string and not empty once trimmed, a truthy [dueDate] that [new Date]
    can read. *)
Definition creatable {R : Runtime} (b : Req.body) : Prop :=
  exists x d,
    Req.task b = Some (JStr x) /\ trim x <> ""
    /\ truthy (Req.dueDate b) = true /\ new_Date (Req.dueDate b) = Some d.

(** What the schema asks of a stored record: a [task] that is trimmed and
    not empty, a [status] of the enumeration. *)
Definition valid (t : Todo) : Prop :=
  task t <> "" /\ trim (task t) = task t /\ isStatus (status t) = true.

Definition clean (s : Server) : Prop := Forall valid (todos s).

(** The record [t] with [updatedAt] set to [now]. *)
Definition touched (now : Z) (t : Todo) : Todo :=
  {| _id := _id t; task := task t; dueDate := dueDate t; status := status t;
     createdAt := createdAt t; updatedAt := now |}.

(** The body [{}]. *)
Definition emptyBody : Req.body :=
  {| Req.task := None; Req.dueDate := None; Req.status := None |}.



(** The cache holds the records of the collection, each once, in some
    order. *)
Definition coherent {R : Runtime} (w : Client.World) : Prop :=
  Permutation (Client.todos w)
              (map Client.toJSON (todos (Client.server w))).

(** What the server would list now, as the browser reads it. *)
Definition listing {R : Runtime} (s : Server) : list Client.Todo :=
  map Client.toJSON (sortTodos (todos s)).


(** ** Facts about the runtime functions *)

Lemma trimEnd_idempotent (s : string) : trimEnd (trimEnd s) = trimEnd s.
Proof.
  induction s as [|c r IH]; simpl; [reflexivity|].
  destruct (trimEnd r) as [|c' r'] eqn:E.
  - destruct (isWhiteSpace c) eqn:W; simpl; [reflexivity|].
    now rewrite W.
  - simpl in *. now rewrite IH.
Qed.

Lemma trimStart_head (s : string) :
  match trimStart s with
  | EmptyString => True
  | String c _ => isWhiteSpace c = false
  end.
Proof.
  induction s as [|c r IH]; simpl; [exact I|].
  destruct (isWhiteSpace c) eqn:W; [exact IH | exact W].
Qed.

Lemma trimStart_trimEnd (s : string) :
  match s with
  | EmptyString => True
  | String c _ => isWhiteSpace c = false
  end ->
  trimStart (trimEnd s) = trimEnd s.
Proof.
  destruct s as [|c r]; simpl; [reflexivity|].
  intros W. destruct (trimEnd r); rewrite ?W; simpl; now rewrite W.
Qed.

Lemma trim_idempotent (s : string) : trim (trim s) = trim s.
Proof.
  unfold trim.
  rewrite (trimStart_trimEnd (trimStart s) (trimStart_head s)).
  apply trimEnd_idempotent.
Qed.


Lemma includes_Some (v : json) (x : string) :
  includes v = Some x -> v = JStr x /\ isStatus x = true.
Proof.
  destruct v; simpl; try discriminate.
  destruct (isStatus s) eqn:E; [|discriminate].
  intros [= <-]. auto.
Qed.

(** ** The order of [GET /todos] *)

Lemma sortKey_leb_spec (a b : Todo) :
  sortKey_leb a b = true <-> listedBefore a b.
Proof.
  unfold sortKey_leb, listedBefore.
  rewrite orb_true_iff, andb_true_iff, Z.ltb_lt, Z.eqb_eq, Z.leb_le.
  reflexivity.
Qed.

Lemma sortKey_leb_total (a b : Todo) :
  sortKey_leb a b = false -> listedBefore b a.
Proof.
  unfold sortKey_leb, listedBefore.
  rewrite orb_false_iff, andb_false_iff, Z.ltb_ge, Z.eqb_neq, Z.leb_gt.
  lia.
Qed.

Lemma listedBefore_trans (a b c : Todo) :
  listedBefore a b -> listedBefore b c -> listedBefore a c.
Proof. unfold listedBefore. lia. Qed.

Lemma insertSorted_perm (t : Todo) (l : list Todo) :
  Permutation (t :: l) (insertSorted t l).
Proof.
  induction l as [|x r IH]; simpl; [apply Permutation_refl|].
  destruct (sortKey_leb t x); [apply Permutation_refl|].
  rewrite perm_swap. now apply perm_skip.
Qed.

Lemma sortTodos_perm (l : list Todo) : Permutation l (sortTodos l).
Proof.
  induction l as [|t r IH]; simpl; [constructor|].
  rewrite <- insertSorted_perm. now apply perm_skip.
Qed.

Lemma insertSorted_sorted (t : Todo) (l : list Todo) :
  StronglySorted listedBefore l -> StronglySorted listedBefore (insertSorted t l).
Proof.
  induction 1 as [|x r Hs IH Hx]; simpl.
  - repeat constructor.
  - destruct (sortKey_leb t x) eqn:E.
    + apply sortKey_leb_spec in E.
      constructor; [now constructor|].
      constructor; [exact E|].
      eapply Forall_impl; [|exact Hx].
      intros y Hy. eapply listedBefore_trans; eassumption.
    + apply sortKey_leb_total in E.
      constructor; [exact IH|].
      eapply Permutation_Forall; [apply insertSorted_perm|].
      now constructor.
Qed.

Lemma sortTodos_sorted (l : list Todo) : StronglySorted listedBefore (sortTodos l).
Proof.
  induction l as [|t r IH]; simpl; [constructor|].
  now apply insertSorted_sorted.
Qed.

Lemma StronglySorted_nth_error (l : list Todo) :
  StronglySorted listedBefore l ->
  forall i j a b, i < j -> nth_error l i = Some a -> nth_error l j = Some b ->
  listedBefore a b.
Proof.
  induction 1 as [|x r Hs IH Hx]; intros i j a b Hij Ha Hb.
  - destruct i; discriminate.
  - destruct j as [|j]; [lia|]. simpl in Hb.
    destruct i as [|i]; simpl in Ha.
    + injection Ha as <-.
      rewrite Forall_forall in Hx. apply Hx.
      eapply nth_error_In; eassumption.
    + eapply (IH i j); [lia| |]; eassumption.
Qed.

(** ** Single-document operations *)

Lemma updateOne_None (o : ObjectId) (f : Todo -> Todo) (l : list Todo) :
  updateOne o f l = None <-> absent o l.
Proof.
  unfold absent. induction l as [|t r IH]; simpl.
  - split; [intros _ x [] | reflexivity].
  - destruct (Nat.eqb_spec (_id t) o) as [E|E].
    + split; [discriminate|]. intros H. now destruct (H t (or_introl eq_refl)).
    + destruct (updateOne o f r) as [[t' r']|].
      * split; [discriminate|]. intros H.
        enough (X : Some (t', r') = None) by discriminate.
        apply IH. intros x Hx. apply H. now right.
      * split; [|reflexivity]. intros _ x [<-|Hx]; [exact E|].
        now apply IH.
Qed.

Lemma updateOne_Some (o : ObjectId) (f : Todo -> Todo) (l l' : list Todo)
  (t' : Todo) :
  updateOne o f l = Some (t', l') ->
  exists l1 t l2,
    l = l1 ++ t :: l2 /\ l' = l1 ++ t' :: l2 /\ t' = f t /\ _id t = o
    /\ absent o l1.
Proof.
  revert l' t'. induction l as [|x r IH]; simpl; intros l' t'; [discriminate|].
  destruct (Nat.eqb_spec (_id x) o) as [E|E].
  - intros [= <- <-]. exists [], x, r. repeat split; auto. intros y [].
  - destruct (updateOne o f r) as [[u r']|]; [|discriminate].
    intros [= <- <-].
    destruct (IH r' u eq_refl) as (l1 & t & l2 & -> & -> & -> & Ht & Hl1).
    exists (x :: l1), t, l2. repeat split; auto.
    intros y [<-|Hy]; [exact E | now apply Hl1].
Qed.


Lemma deleteOne_None (o : ObjectId) (l : list Todo) :
  deleteOne o l = None <-> absent o l.
Proof.
  unfold absent. induction l as [|t r IH]; simpl.
  - split; [intros _ x [] | reflexivity].
  - destruct (Nat.eqb_spec (_id t) o) as [E|E].
    + split; [discriminate|]. intros H. now destruct (H t (or_introl eq_refl)).
    + destruct (deleteOne o r) as [[t' r']|].
      * split; [discriminate|]. intros H.
        enough (X : Some (t', r') = None) by discriminate.
        apply IH. intros x Hx. apply H. now right.
      * split; [|reflexivity]. intros _ x [<-|Hx]; [exact E|].
        now apply IH.
Qed.

Lemma deleteOne_Some (o : ObjectId) (l l' : list Todo) (t : Todo) :
  deleteOne o l = Some (t, l') ->
  exists l1 l2,
    l = l1 ++ t :: l2 /\ l' = l1 ++ l2 /\ _id t = o /\ absent o l1.
Proof.
  revert l' t. induction l as [|x r IH]; simpl; intros l' t; [discriminate|].
  destruct (Nat.eqb_spec (_id x) o) as [E|E].
  - intros [= <- <-]. exists [], r. repeat split; auto. intros y [].
  - destruct (deleteOne o r) as [[u r']|]; [|discriminate].
    intros [= <- <-].
    destruct (IH r' u eq_refl) as (l1 & l2 & -> & -> & Ht & Hl1).
    exists (x :: l1), l2. repeat split; auto.
    intros y [<-|Hy]; [exact E | now apply Hl1].
Qed.

(** With distinct [_id]s the document found is the only one with its
    [_id]. *)
Lemma NoDup_ids_split (l1 l2 : list Todo) (t : Todo) :
  NoDup (map _id (l1 ++ t :: l2)) ->
  absent (_id t) (l1 ++ l2) /\ NoDup (map _id (l1 ++ l2)).
Proof.
  rewrite map_app. simpl. intros H.
  split.
  - apply NoDup_remove_2 in H. intros x Hx E. apply H.
    rewrite <- map_app, <- E. now apply in_map.
  - apply NoDup_remove_1 in H. now rewrite map_app.
Qed.

Lemma NoDup_ids_unique (l : list Todo) (t u : Todo) :
  NoDup (map _id l) -> In t l -> In u l -> _id t = _id u -> t = u.
Proof.
  induction l as [|x r IH]; simpl; [intros _ []|].
  intros H Ht Hu E. inversion H as [|? ? Hx Hr]; subst.
  destruct Ht as [<-|Ht], Hu as [<-|Hu]; auto.
  - destruct Hx. rewrite E. now apply in_map.
  - destruct Hx. rewrite <- E. now apply in_map.
Qed.

Lemma filter_hasId_absent (o : ObjectId) (l : list Todo) :
  absent o l -> filter (hasId o) l = [].
Proof.
  unfold absent, hasId. induction l as [|x r IH]; simpl; [reflexivity|].
  intros H. destruct (Nat.eqb_spec (_id x) o) as [E|E].
  - now destruct (H x (or_introl eq_refl)).
  - apply IH. intros y Hy. apply H. now right.
Qed.

(** ** What each handler answers *)

Ltac run :=
  unfold getTodos, postTodo, putTodo, deleteTodo, find_sort, findByIdAndUpdate,
    findByIdAndDelete, save, new_Todo, command, tryCatch, await, resolve,
    reject, lift, ObjectId_isValid, String_trim, new_Date; simpl.

Section Handlers.
Context {R : Runtime}.

Lemma trim_nonempty (x : string) : trim x <> "" -> x <> "".
Proof. intros H ->. now apply H. Qed.

Lemma getTodos_connected (s : Server) :
  conn s = None ->
  getTodos s = (res 200 (TodoList (sortTodos (todos s))), issue Find s).
Proof. intros H. run. now rewrite H. Qed.

Lemma getTodos_failing (s : Server) (msg : string) :
  conn s = Some msg ->
  getTodos s = (res 500 (ErrorMessage (MongoError msg)), issue Find s).
Proof. intros H. run. now rewrite H. Qed.

Lemma postTodo_missing (now : Z) (b : Req.body) (s : Server) :
  truthy (Req.task b) = false \/ truthy (Req.dueDate b) = false ->
  postTodo now b s =
    (res 400 (Details "Task and due date are required"
       (if truthy (Req.task b) then None else Some "Task is required")
       (if truthy (Req.dueDate b) then None else Some "Due date is required")),
     s).
Proof.
  intros H. run.
  destruct (truthy (Req.task b)), (truthy (Req.dueDate b)); simpl;
    try reflexivity.
  now destruct H.
Qed.

Lemma postTodo_created (now : Z) (b : Req.body) (s : Server) (x : string)
  (d : Z) :
  Req.task b = Some (JStr x) -> trim x <> "" ->
  truthy (Req.dueDate b) = true -> new_Date (Req.dueDate b) = Some d ->
  conn s = None ->
  postTodo now b s =
    (res 201 (TodoDoc (created s now x d)),
     {| todos := todos s ++ [created s now x d];
        nextId := S (nextId s);
        conn := None;
        issued := issued s ++ [InsertOne (nextId s)] |}).
Proof.
  intros Ht Hx Hd Hn Hc. run.
  rewrite Ht, Hd. simpl.
  apply trim_nonempty in Hx as Hx'. apply String.eqb_neq in Hx'.
  rewrite Hx'. simpl.
  unfold new_Date in Hn. rewrite Hn. rewrite trim_idempotent.
  apply String.eqb_neq in Hx. rewrite Hx. simpl. rewrite Hc.
  reflexivity.
Qed.

Lemma postTodo_blank (now : Z) (b : Req.body) (s : Server) (x : string) :
  Req.task b = Some (JStr x) -> x <> "" -> trim x = "" ->
  truthy (Req.dueDate b) = true ->
  exists paths,
    postTodo now b s =
      (res 500 (Failed "Failed to create todo" (Some (ValidationError paths))),
       {| todos := todos s; nextId := S (nextId s); conn := conn s;
          issued := issued s |}).
Proof.
  intros Ht Hx Hb Hd. run.
  rewrite Ht, Hd. simpl.
  apply String.eqb_neq in Hx. rewrite Hx. simpl.
  rewrite trim_idempotent, Hb. simpl.
  destruct (match Req.dueDate b with Some j => newDate j | None => None end);
    eexists; reflexivity.
Qed.

Lemma postTodo_failing (now : Z) (b : Req.body) (s : Server) (x msg : string)
  (d : Z) :
  Req.task b = Some (JStr x) -> trim x <> "" ->
  truthy (Req.dueDate b) = true -> new_Date (Req.dueDate b) = Some d ->
  conn s = Some msg ->
  postTodo now b s =
    (res 500 (Failed "Failed to create todo" (Some (MongoError msg))),
     {| todos := todos s;
        nextId := S (nextId s);
        conn := Some msg;
        issued := issued s ++ [InsertOne (nextId s)] |}).
Proof.
  intros Ht Hx Hd Hn Hc. run.
  rewrite Ht, Hd. simpl.
  apply trim_nonempty in Hx as Hx'. apply String.eqb_neq in Hx'.
  rewrite Hx'. simpl.
  unfold new_Date in Hn. rewrite Hn. rewrite trim_idempotent.
  apply String.eqb_neq in Hx. rewrite Hx. simpl. now rewrite Hc.
Qed.

Lemma deleteTodo_invalid (id : string) (s : Server) :
  ObjectId_isValid id = false ->
  deleteTodo id s = (res 400 (Message "Invalid todo ID format"), s).
Proof.
  unfold ObjectId_isValid. intros H. run.
  destruct (castObjectId id); [discriminate | reflexivity].
Qed.

Lemma deleteTodo_connected (id : string) (o : ObjectId) (s : Server) :
  castObjectId id = Some o -> conn s = None ->
  deleteTodo id s =
    match deleteOne o (todos s) with
    | Some (t, l) =>
        (res 200 (Deleted "Todo deleted successfully" t),
         setTodos l (issue (FindOneAndDelete o) s))
    | None =>
        (res 404 (Message "Todo not found"), issue (FindOneAndDelete o) s)
    end.
Proof.
  intros Ho Hc. run. rewrite Ho. simpl. rewrite Hc.
  now destruct (deleteOne o (todos s)) as [[t l]|].
Qed.

Lemma deleteTodo_failing (id msg : string) (o : ObjectId) (s : Server) :
  castObjectId id = Some o -> conn s = Some msg ->
  deleteTodo id s =
    (res 500 (Failed "Failed to delete todo" (Some (MongoError msg))),
     issue (FindOneAndDelete o) s).
Proof. intros Ho Hc. run. rewrite Ho. simpl. now rewrite Hc. Qed.

Lemma putTodo_invalid (now : Z) (id : string) (b : Req.body) (s : Server) :
  ObjectId_isValid id = false ->
  putTodo now id b s = (res 400 (Message "Invalid todo ID format"), s).
Proof.
  unfold ObjectId_isValid. intros H. run.
  destruct (castObjectId id); [discriminate | reflexivity].
Qed.

Lemma putTodo_TypeError (now : Z) (id : string) (o : ObjectId) (b : Req.body)
  (s : Server) :
  castObjectId id = Some o -> ~ textOrAbsent (Req.task b) ->
  putTodo now id b s =
    (res 500 (Failed "Failed to update todo" (Some TypeError)), s).
Proof.
  unfold textOrAbsent. intros Ho Ht. run. rewrite Ho. simpl.
  destruct (Req.task b) as [[]|]; try reflexivity; destruct Ht; eauto.
Qed.

Lemma putTodo_status (now : Z) (id : string) (o : ObjectId) (b : Req.body)
  (s : Server) (v : json) :
  castObjectId id = Some o -> textOrAbsent (Req.task b) ->
  Req.status b = Some v -> includes v = None ->
  putTodo now id b s = (res 400 (Message "Invalid status value"), s).
Proof.
  intros Ho [Ht|[x Ht]] Hs Hv; run; now rewrite Ho, Ht, Hs, Hv.
Qed.

Lemma tryCatch_lift {A : Type} (a : A) (k : A -> Async response)
  (h : jsError -> response) (s : Server) :
  tryCatch (x <- lift (inr a) ;; k x) h s = tryCatch (k a) h s.
Proof. reflexivity. Qed.

Lemma findByIdAndUpdate_valid (now : Z) (id : string) (o : ObjectId)
  (task status : option string) (due : option Z) (s : Server) :
  castObjectId id = Some o ->
  (forall x, task = Some x -> trim x <> "") ->
  (forall x, status = Some x -> isStatus x = true) ->
  findByIdAndUpdate now id
    {| Upd.task := task;
       Upd.dueDate := option_map Some due;
       Upd.status := status |} s =
    match conn s with
    | Some msg => (inl (MongoError msg), issue (FindOneAndUpdate o) s)
    | None =>
        match updateOne o (applyUpdate now (option_map trim task) due status)
                (todos s) with
        | Some (t, l) =>
            (inr (Some t), setTodos l (issue (FindOneAndUpdate o) s))
        | None => (inr None, issue (FindOneAndUpdate o) s)
        end
    end.
Proof.
  intros Ho Ht Hs. unfold findByIdAndUpdate, command, reject. simpl.
  rewrite Ho.
  assert (E1 : match option_map trim task with
               | Some x => x =? ""
               | None => false
               end = false).
  { destruct task as [x|]; simpl; [|reflexivity].
    apply String.eqb_neq. now apply Ht. }
  assert (E2 : match status with
               | Some x => negb (isStatus x)
               | None => false
               end = false).
  { destruct status as [x|]; [|reflexivity]. now rewrite (Hs x eq_refl). }
  destruct due as [d|]; simpl; rewrite E1, E2;
    (destruct (conn s); [reflexivity|]);
    now destruct (updateOne _ _ (todos s)) as [[t l]|].
Qed.

Lemma putTodo_acceptable (now : Z) (id : string) (o : ObjectId) (b : Req.body)
  (s : Server) :
  castObjectId id = Some o -> acceptable b ->
  putTodo now id b s =
    match conn s with
    | Some msg =>
        (res 500 (Failed "Failed to update todo" (Some (MongoError msg))),
         issue (FindOneAndUpdate o) s)
    | None =>
        match updateOne o (updateOf now b) (todos s) with
        | Some (t, l) =>
            (res 200 (TodoDoc t), setTodos l (issue (FindOneAndUpdate o) s))
        | None =>
            (res 404 (Message "Todo not found"), issue (FindOneAndUpdate o) s)
        end
    end.
Proof.
  intros Ho (Ht & Hd & Hs).
  assert (Hcall : forall task status due,
    (forall x, task = Some x -> trim x <> "") ->
    (forall x, status = Some x -> isStatus x = true) ->
    tryCatch
      (updatedTodo <- findByIdAndUpdate now id
         {| Upd.task := task; Upd.dueDate := option_map Some due;
            Upd.status := status |} ;;
       match updatedTodo with
       | None => resolve (res 404 (Message "Todo not found"))
       | Some t => resolve (res 200 (TodoDoc t))
       end)
      (fun error => res 500 (Failed "Failed to update todo" (Some error))) s =
    match conn s with
    | Some msg =>
        (res 500 (Failed "Failed to update todo" (Some (MongoError msg))),
         issue (FindOneAndUpdate o) s)
    | None =>
        match updateOne o (applyUpdate now (option_map trim task) due status)
                (todos s) with
        | Some (t, l) =>
            (res 200 (TodoDoc t), setTodos l (issue (FindOneAndUpdate o) s))
        | None =>
            (res 404 (Message "Todo not found"), issue (FindOneAndUpdate o) s)
        end
    end).
  { intros task status due H1 H2. unfold tryCatch, await.
    rewrite (findByIdAndUpdate_valid now id o task status due s Ho H1 H2).
    destruct (conn s); [reflexivity|].
    now destruct (updateOne _ _ (todos s)) as [[t l]|]. }
  assert (Hdue : exists due,
            new_Date (Req.dueDate b) = due
            /\ match Req.dueDate b with
               | Some _ => Some (new_Date (Req.dueDate b))
               | None => None
               end = option_map Some due).
  { destruct Hd as [Hd|(d & Hd)].
    - exists None. now rewrite Hd.
    - exists (Some d). rewrite Hd. now destruct (Req.dueDate b). }
  destruct Hdue as (due & Hdue & Hupd).
  unfold putTodo, ObjectId_isValid, updateOf, taskSet, statusSet.
  rewrite Ho, Hupd, Hdue. cbn [negb].
  destruct Ht as [Ht|(x & Ht & Hx)], Hs as [Hs|(y & Hs & Hy)];
    rewrite Ht, Hs; cbn [String_trim includes]; rewrite ?Hy;
    rewrite tryCatch_lift, Hcall; try discriminate;
    cbn [option_map]; rewrite ?trim_idempotent; try reflexivity.
  all: intros z [= <-]; rewrite ?trim_idempotent; assumption.
Qed.

(** A PUT with a well-formed id either carries an acceptable body or is
    answered 400 or 500 before any command is issued. *)
Lemma putTodo_cases (now : Z) (id : string) (o : ObjectId) (b : Req.body)
  (s : Server) :
  castObjectId id = Some o ->
  acceptable b
  \/ ((statusCode (fst (putTodo now id b s)) = 400
       \/ statusCode (fst (putTodo now id b s)) = 500)
      /\ snd (putTodo now id b s) = s).
Proof.
  intros Ho.
  set (rejected := (statusCode (fst (putTodo now id b s)) = 400
                    \/ statusCode (fst (putTodo now id b s)) = 500)
                   /\ snd (putTodo now id b s) = s).
  assert (Htask : (Req.task b = None
                   \/ exists x, Req.task b = Some (JStr x) /\ trim x <> "")
                  \/ rejected).
  { destruct (Req.task b) as [[| | |x| |]|] eqn:Ht; auto;
      try (right; unfold rejected;
           rewrite (putTodo_TypeError now id o b s Ho); [now auto|];
           unfold textOrAbsent; rewrite Ht; intros [H|[x H]]; discriminate).
    destruct (String.eqb_spec (trim x) "") as [Hx|Hx]; [|left; right; eauto].
    right. unfold rejected. run. rewrite Ho, Ht. simpl.
    destruct (Req.status b) as [v|]; [destruct (includes v) eqn:Hv|];
      simpl; auto;
      destruct (Req.dueDate b) as [j|];
      [destruct (newDate j)| |destruct (newDate j)|];
      simpl; rewrite ?trim_idempotent, ?Hx; simpl; auto. }
  destruct Htask as [Htask|]; [|now right].
  assert (Htext : textOrAbsent (Req.task b)).
  { destruct Htask as [Ht|(x & Ht & _)]; [now left | right; eauto]. }
  assert (Hstatus : (Req.status b = None
                     \/ exists x, Req.status b = Some (JStr x)
                                  /\ isStatus x = true)
                    \/ rejected).
  { destruct (Req.status b) as [v|] eqn:Hs; auto.
    destruct (includes v) as [y|] eqn:Hv.
    - apply includes_Some in Hv as [-> Hy]. left; right; eauto.
    - right. unfold rejected.
      rewrite (putTodo_status now id o b s v Ho Htext Hs Hv). auto. }
  destruct Hstatus as [Hstatus|]; [|now right].
  destruct (Req.dueDate b) as [j|] eqn:Hd.
  - destruct (newDate j) as [d|] eqn:Hj.
    + left. repeat split; auto. right. exists d. unfold new_Date.
      now rewrite Hd.
    + right. unfold rejected. run. rewrite Ho, Hd, Hj.
      destruct Htask as [Ht|(x & Ht & _)],
               Hstatus as [Hs|(y & Hs & Hy)]; rewrite Ht, Hs; simpl;
        rewrite ?Hy; simpl; auto.
  - left. repeat split; auto.
Qed.

(** *** The collection stays well formed *)

Lemma wf_bump (s : Server) :
  wf s ->
  wf {| todos := todos s; nextId := S (nextId s); conn := conn s;
        issued := issued s |}.
Proof.
  intros [Hn Hf]. split; [exact Hn|]. simpl.
  eapply Forall_impl; [|exact Hf]. simpl. intros t Ht. lia.
Qed.

Lemma fresh_absent (s : Server) : wf s -> absent (nextId s) (todos s).
Proof.
  intros [_ Hf] t Ht E. rewrite Forall_forall in Hf.
  specialize (Hf t Ht). lia.
Qed.

Lemma wf_insert (s : Server) (t : Todo) (c : option string)
  (log : list Command) :
  wf s -> _id t = nextId s ->
  wf {| todos := todos s ++ [t]; nextId := S (nextId s); conn := c;
        issued := log |}.
Proof.
  intros Hwf Hid. pose proof (fresh_absent s Hwf) as Hfresh.
  destruct Hwf as [Hn Hf]. split; simpl.
  - rewrite map_app. simpl.
    apply NoDup_rev in Hn. rewrite <- (rev_involutive (map _id (todos s) ++ _)).
    apply NoDup_rev. rewrite rev_app_distr. simpl.
    constructor; [|exact Hn].
    rewrite <- in_rev, in_map_iff. intros (x & Hx & Hin).
    apply (Hfresh x Hin). congruence.
  - apply Forall_app. split.
    + eapply Forall_impl; [|exact Hf]. simpl. intros x Hx. lia.
    + constructor; [lia | constructor].
Qed.

Lemma wf_getTodos (s : Server) : wf s -> wf (snd (getTodos s)).
Proof.
  intros H. destruct (conn s) as [msg|] eqn:Hc.
  - now rewrite (getTodos_failing s msg Hc).
  - now rewrite (getTodos_connected s Hc).
Qed.

Lemma wf_postTodo (now : Z) (b : Req.body) (s : Server) :
  wf s -> wf (snd (postTodo now b s)).
Proof.
  intros H. run.
  destruct (truthy (Req.task b)); [|exact H].
  destruct (truthy (Req.dueDate b)); [|exact H]. simpl.
  destruct (Req.task b) as [[| | |x| |]|]; try exact H. simpl.
  destruct (match Req.dueDate b with Some j => newDate j | None => None end)
    as [d|]; simpl.
  - destruct (trim (trim x) =? ""); simpl; [now apply wf_bump|].
    destruct (conn s); simpl; [now apply wf_bump|].
    now apply wf_insert.
  - now apply wf_bump.
Qed.

Lemma updateOne_ids (o : ObjectId) (f : Todo -> Todo) (l l' : list Todo)
  (t' : Todo) :
  (forall t, _id (f t) = _id t) ->
  updateOne o f l = Some (t', l') -> map _id l' = map _id l.
Proof.
  intros Hf H.
  apply updateOne_Some in H as (l1 & t & l2 & -> & -> & -> & _ & _).
  rewrite !map_app. simpl. now rewrite Hf.
Qed.

Lemma wf_ids (s : Server) (l : list Todo) :
  wf s -> map _id l = map _id (todos s) -> wf (setTodos l s).
Proof.
  intros [Hn Hf] E. split; simpl; [now rewrite E|].
  rewrite Forall_forall in *. intros t Ht.
  apply (in_map _id) in Ht. rewrite E, in_map_iff in Ht.
  destruct Ht as (x & Hx & Hin). rewrite <- Hx. now apply Hf.
Qed.

Lemma wf_putTodo (now : Z) (id : string) (b : Req.body) (s : Server) :
  wf s -> wf (snd (putTodo now id b s)).
Proof.
  intros H. destruct (castObjectId id) as [o|] eqn:Ho.
  - destruct (putTodo_cases now id o b s Ho) as [Hb|[_ ->]]; [|exact H].
    rewrite (putTodo_acceptable now id o b s Ho Hb).
    destruct (conn s); [exact H|].
    destruct (updateOne o (updateOf now b) (todos s)) as [[t l]|] eqn:E;
      [|exact H].
    apply (wf_ids (issue (FindOneAndUpdate o) s)); [exact H|].
    eapply updateOne_ids; [|exact E]. reflexivity.
  - rewrite putTodo_invalid; [exact H|].
    unfold ObjectId_isValid. now rewrite Ho.
Qed.

Lemma wf_deleteTodo (id : string) (s : Server) :
  wf s -> wf (snd (deleteTodo id s)).
Proof.
  intros H. destruct (castObjectId id) as [o|] eqn:Ho.
  - destruct (conn s) as [msg|] eqn:Hc.
    + now rewrite (deleteTodo_failing id msg o s Ho Hc).
    + rewrite (deleteTodo_connected id o s Ho Hc).
      destruct (deleteOne o (todos s)) as [[t l]|] eqn:E; [|exact H].
      apply deleteOne_Some in E as (l1 & l2 & E1 & -> & _ & _).
      destruct H as [Hn Hf]. rewrite E1 in Hn, Hf.
      split; simpl.
      * now apply NoDup_ids_split in Hn.
      * apply Forall_app in Hf as [H1 H2]. apply Forall_app.
        split; [exact H1 | now inversion H2].
  - rewrite deleteTodo_invalid; [exact H|].
    unfold ObjectId_isValid. now rewrite Ho.
Qed.

(** Whatever requests arrive and whatever happens to the connection, the
    collection of a server stays well formed. *)
Lemma wf_after (e : Event) (s : Server) : wf s -> wf (after e s).
Proof.
  destruct e as [[|now b|now id b|id]|msg|]; simpl; intros H;
    auto using wf_getTodos, wf_postTodo, wf_putTodo, wf_deleteTodo.
Qed.

Lemma wf_afterAll (es : list Event) (s : Server) :
  wf s -> wf (afterAll es s).
Proof.
  unfold afterAll. revert s.
  induction es as [|e es IH]; simpl; intros s H; [exact H|].
  apply IH. now apply wf_after.
Qed.


End Handlers.

(** ** The properties of the REST interface *)

Lemma filter_perm {A : Type} (f : A -> bool) (l l' : list A) :
  Permutation l l' -> Permutation (filter f l) (filter f l').
Proof.
  induction 1 as [|x l l' H IH|x y l|l l' l'' H1 IH1 H2 IH2]; simpl.
  - constructor.
  - destruct (f x); [now constructor | exact IH].
  - destruct (f x), (f y); try apply Permutation_refl. apply perm_swap.
  - eapply Permutation_trans; eassumption.
Qed.

Section Claims.
Context {R : Runtime}.

(** C3.  While the database answers, [GET /todos] returns every stored
    task, and in the order of the reply a task never stands before one
    that is due earlier; of two tasks due at the same time the one that
    stands first was created no earlier than the other, so the task
    created later comes first. *)
Theorem getTodos_sorted (s : Server) :
  conn s = None ->
  exists out,
    fst (getTodos s) = res 200 (TodoList out)
    /\ Permutation (todos s) out
    /\ forall i j a b,
         i < j -> nth_error out i = Some a -> nth_error out j = Some b ->
         (dueDate a <= dueDate b)%Z
         /\ (dueDate a = dueDate b -> (createdAt b <= createdAt a)%Z).
Proof.
  intros Hc. exists (sortTodos (todos s)).
  rewrite (getTodos_connected s Hc). split; [reflexivity|].
  split; [apply sortTodos_perm|].
  intros i j a b Hij Ha Hb.
  pose proof (StronglySorted_nth_error _ (sortTodos_sorted (todos s))
                i j a b Hij Ha Hb) as H.
  unfold listedBefore in H. lia.
Qed.

(** C1, amended.  For a task that is a string and not empty once trimmed
    and a due date that is truthy and that [new Date] can read, on a
    connected server whose collection is well formed: [POST /todos]
    answers 201 with the new record (trimmed task, parsed due date, status
    pending, a fresh id, both timestamps set to the time of creation), and
    the [GET /todos] that follows returns this record together with the
    records stored before.  The new record is the only one with its id;
    the records with the same task and due date are one more than before,
    hence exactly one when none was stored before. *)
Theorem postTodo_then_getTodos (now : Z) (b : Req.body) (s : Server)
  (x : string) (d : Z) :
  wf s -> conn s = None ->
  Req.task b = Some (JStr x) -> trim x <> "" ->
  truthy (Req.dueDate b) = true -> new_Date (Req.dueDate b) = Some d ->
  fst (postTodo now b s) = res 201 (TodoDoc (created s now x d))
  /\ exists out,
       fst (getTodos (snd (postTodo now b s))) = res 200 (TodoList out)
       /\ Permutation (created s now x d :: todos s) out
       /\ filter (hasId (nextId s)) out = [created s now x d]
       /\ List.length (filter (matches (trim x) d) out)
          = S (List.length (filter (matches (trim x) d) (todos s))).
Proof.
  intros Hwf Hc Ht Hx Hd Hn.
  rewrite (postTodo_created now b s x d Ht Hx Hd Hn Hc). cbn [fst snd].
  split; [reflexivity|].
  rewrite getTodos_connected by reflexivity. cbn [fst snd todos].
  eexists. split; [reflexivity|].
  assert (Hp : Permutation (created s now x d :: todos s)
                 (sortTodos (todos s ++ [created s now x d]))).
  { rewrite <- sortTodos_perm. apply Permutation_cons_append. }
  split; [exact Hp|]. split.
  - apply Permutation_length_1_inv.
    rewrite <- (filter_perm (hasId (nextId s)) _ _ Hp). simpl.
    unfold hasId at 1. simpl. rewrite Nat.eqb_refl.
    now rewrite (filter_hasId_absent _ _ (fresh_absent s Hwf)).
  - rewrite <- (Permutation_length (filter_perm (matches (trim x) d) _ _ Hp)).
    simpl. unfold matches at 1. simpl.
    now rewrite String.eqb_refl, Z.eqb_refl.
Qed.

(** C8.  On a connected server whose collection is well formed,
    [DELETE /todos/:id] for the id of a stored record answers 200 with
    [{ message, deletedTodo }] where [deletedTodo] is that record as it was
    stored, and the [GET /todos] that follows returns the other records
    and none with this id. *)
Theorem deleteTodo_stored (id : string) (o : ObjectId) (t : Todo) (s : Server) :
  wf s -> conn s = None ->
  castObjectId id = Some o -> In t (todos s) -> _id t = o ->
  fst (deleteTodo id s) = res 200 (Deleted "Todo deleted successfully" t)
  /\ exists out,
       fst (getTodos (snd (deleteTodo id s))) = res 200 (TodoList out)
       /\ absent o out
       /\ Permutation (todos s) (t :: out).
Proof.
  intros [Hn Hf] Hc Ho Hin Hid.
  rewrite (deleteTodo_connected id o s Ho Hc).
  destruct (deleteOne o (todos s)) as [[u l]|] eqn:E.
  - apply deleteOne_Some in E as (l1 & l2 & E1 & -> & Hu & Hl1).
    assert (u = t) as ->.
    { apply (NoDup_ids_unique (todos s)); auto; [|congruence].
      rewrite E1. apply in_elt. }
    cbn [fst snd]. split; [reflexivity|].
    rewrite getTodos_connected by exact Hc. cbn [fst snd todos setTodos].
    eexists. split; [reflexivity|].
    rewrite E1 in Hn. apply NoDup_ids_split in Hn as [Habs _].
    split.
    + intros y Hy. rewrite <- Hid. apply Habs.
      eapply Permutation_in; [symmetry; apply sortTodos_perm | exact Hy].
    + rewrite E1, <- sortTodos_perm. symmetry. apply Permutation_middle.
  - apply deleteOne_None in E. now destruct (E t Hin).
Qed.

(** C6.  When [PUT /todos/:id] answers 200 with a record, that record
    replaces the stored record with this id and every other record stays as
    it was; the id and [createdAt] are those of the stored record, and so
    is each of [task], [dueDate] and [status] that the body does not have.
    A field the body has takes the value sent (the task trimmed, the due
    date as read by [new Date]). *)
Theorem putTodo_partial_update (now : Z) (id : string) (b : Req.body)
  (s : Server) (t' : Todo) :
  fst (putTodo now id b s) = res 200 (TodoDoc t') ->
  exists l1 t l2,
    todos s = l1 ++ t :: l2
    /\ absent (_id t) l1
    /\ castObjectId id = Some (_id t)
    /\ todos (snd (putTodo now id b s)) = l1 ++ t' :: l2
    /\ _id t' = _id t
    /\ createdAt t' = createdAt t
    /\ (Req.task b = None -> task t' = task t)
    /\ (Req.dueDate b = None -> dueDate t' = dueDate t)
    /\ (Req.status b = None -> status t' = status t)
    /\ (forall x, Req.task b = Some (JStr x) -> task t' = trim x)
    /\ (forall d, new_Date (Req.dueDate b) = Some d -> dueDate t' = d)
    /\ (forall x, Req.status b = Some (JStr x) -> status t' = x).
Proof.
  intros H. destruct (castObjectId id) as [o|] eqn:Ho.
  - destruct (putTodo_cases now id o b s Ho) as [Hb|[Hcode _]].
    + rewrite (putTodo_acceptable now id o b s Ho Hb) in *.
      destruct (conn s); [discriminate|].
      destruct (updateOne o (updateOf now b) (todos s)) as [[u l]|] eqn:E;
        [|discriminate].
      simpl in H. injection H as ->.
      apply updateOne_Some in E as (l1 & t & l2 & E1 & -> & -> & <- & Hl1).
      exists l1, t, l2. simpl.
      unfold updateOf, taskSet, statusSet, applyUpdate. simpl.
      repeat split; auto.
      * now intros ->.
      * now intros ->.
      * now intros ->.
      * now intros x ->.
      * now intros d ->.
      * now intros x ->.
    + rewrite H in Hcode. simpl in Hcode. destruct Hcode; discriminate.
  - rewrite putTodo_invalid in H; [discriminate|].
    unfold ObjectId_isValid. now rewrite Ho.
Qed.

(** C5, amended.  [PUT] and [DELETE] on an id that is not a well-formed
    ObjectId answer 400 and leave the state as it was, whatever the body
    and the state of the server.  With a well-formed id that no stored
    record has, on a connected server, [DELETE] answers 404, and [PUT]
    answers 404 when its body is acceptable (a body with an invalid
    status, a task that is not a non-blank string or an unreadable date is
    refused before the lookup); the collection is unchanged in both
    cases. *)
Theorem invalid_or_unknown_id (now : Z) (id : string) (b : Req.body)
  (s : Server) :
  (ObjectId_isValid id = false ->
   putTodo now id b s = (res 400 (Message "Invalid todo ID format"), s)
   /\ deleteTodo id s = (res 400 (Message "Invalid todo ID format"), s))
  /\ (forall o,
        castObjectId id = Some o -> absent o (todos s) -> conn s = None ->
        fst (deleteTodo id s) = res 404 (Message "Todo not found")
        /\ todos (snd (deleteTodo id s)) = todos s
        /\ (acceptable b ->
            fst (putTodo now id b s) = res 404 (Message "Todo not found")
            /\ todos (snd (putTodo now id b s)) = todos s)).
Proof.
  split.
  - intros Hbad. split; [now apply putTodo_invalid|].
    now apply deleteTodo_invalid.
  - intros o Ho Habs Hc.
    rewrite (deleteTodo_connected id o s Ho Hc).
    apply deleteOne_None in Habs as Hd. rewrite Hd.
    split; [reflexivity|]. split; [reflexivity|].
    intros Hb. rewrite (putTodo_acceptable now id o b s Ho Hb), Hc.
    apply (updateOne_None o (updateOf now b)) in Habs as Hu.
    rewrite Hu. split; reflexivity.
Qed.



(** C2, at the input that fails.  A [POST /todos] whose [task] is a
    non-empty string of white space, with a truthy [dueDate], passes the
    test [!task]; the trimmed task then fails the [required] validator in
    [save] and the [catch] block answers 500, not 400.  No record is
    stored. *)
Theorem postTodo_blank_task (now : Z) (b : Req.body) (s : Server) (x : string) :
  Req.task b = Some (JStr x) -> x <> "" -> trim x = "" ->
  truthy (Req.dueDate b) = true ->
  statusCode (fst (postTodo now b s)) = 500
  /\ todos (snd (postTodo now b s)) = todos s.
Proof.
  intros Ht Hx Hb Hd.
  destruct (postTodo_blank now b s x Ht Hx Hb Hd) as [paths ->].
  now split.
Qed.

(** C9, at the inputs that fail.  When the database rejects a command
    with an error, each handler answers 500 from its own [catch] block and
    puts the message of that error in the body; none of them reads
    [NODE_ENV].  Only the error-handling middleware, which no handler
    passes its errors to, leaves the message out when the mode is not
    development. *)
Theorem handlers_send_error_message (now : Z) (id msg x : string)
  (o : ObjectId) (d : Z) (b b' : Req.body) (s : Server) :
  conn s = Some msg ->
  Req.task b = Some (JStr x) -> trim x <> "" ->
  truthy (Req.dueDate b) = true -> new_Date (Req.dueDate b) = Some d ->
  castObjectId id = Some o -> acceptable b' ->
  fst (getTodos s) = res 500 (ErrorMessage (MongoError msg))
  /\ fst (postTodo now b s)
     = res 500 (Failed "Failed to create todo" (Some (MongoError msg)))
  /\ fst (putTodo now id b' s)
     = res 500 (Failed "Failed to update todo" (Some (MongoError msg)))
  /\ fst (deleteTodo id s)
     = res 500 (Failed "Failed to delete todo" (Some (MongoError msg)))
  /\ forall mode,
       mode <> "development" ->
       errorMiddleware (Some mode) (MongoError msg)
       = res 500 (Failed "Internal server error" None).
Proof.
  intros Hc Ht Hx Hd Hn Ho Hb.
  rewrite (getTodos_failing s msg Hc).
  rewrite (postTodo_failing now b s x msg d Ht Hx Hd Hn Hc).
  rewrite (putTodo_acceptable now id o b' s Ho Hb), Hc.
  rewrite (deleteTodo_failing id msg o s Ho Hc).
  repeat split. intros mode Hm. unfold errorMiddleware.
  apply String.eqb_neq in Hm. now rewrite Hm.
Qed.

End Claims.

(** ** The toggle of the browser *)



Lemma updateOne_split (o : ObjectId) (g : Todo -> Todo) (l1 l2 : list Todo)
  (t : Todo) :
  absent o l1 -> _id t = o ->
  updateOne o g (l1 ++ t :: l2) = Some (g t, l1 ++ g t :: l2).
Proof.
  intros Hl1 Ht. induction l1 as [|x r IH]; simpl.
  - apply Nat.eqb_eq in Ht. now rewrite Ht.
  - destruct (Nat.eqb_spec (_id x) o) as [E|E].
    + now destruct (Hl1 x (or_introl eq_refl)).
    + rewrite IH; [reflexivity|]. intros y Hy. apply Hl1. now right.
Qed.


Section Toggle.
Context {R : Runtime}.


Lemma acceptable_statusOnly (y : string) :
  isStatus y = true -> acceptable (statusOnly y).
Proof.
  intros Hy. repeat split; simpl; auto. right. eauto.
Qed.





(** The ids that reach the browser are in printed form: when printing and
    casting an ObjectId round-trip, every task sent by [res.json] has an
    [_id] that casts back to the ObjectId it prints. *)
Lemma toJSON_id_printed (t : Todo) :
  (forall o, castObjectId (toHexString o) = Some o) ->
  forall o, castObjectId (Client._id (Client.toJSON t)) = Some o ->
            toHexString o = Client._id (Client.toJSON t).
Proof.
  intros Hrt o Ho. simpl in *. rewrite Hrt in Ho. now injection Ho as <-.
Qed.


End Toggle.

(** ** The outcomes of a request *)

Section Outcomes.
Context {R : Runtime}.

Lemma truthy_JStr (x : string) : truthy (Some (JStr x)) = true -> x <> "".
Proof. simpl. intros H ->. discriminate. Qed.

Lemma postTodo_TypeError (now : Z) (b : Req.body) (s : Server) :
  truthy (Req.task b) = true -> truthy (Req.dueDate b) = true ->
  (forall x, Req.task b <> Some (JStr x)) ->
  postTodo now b s
  = (res 500 (Failed "Failed to create todo" (Some TypeError)), s).
Proof.
  intros Ht Hd Hx. run. rewrite Ht, Hd. simpl.
  destruct (Req.task b) as [[| | |x| |]|]; try reflexivity.
  now destruct (Hx x).
Qed.

Lemma postTodo_unreadable_date (now : Z) (b : Req.body) (s : Server)
  (x : string) :
  Req.task b = Some (JStr x) -> trim x <> "" ->
  truthy (Req.dueDate b) = true -> new_Date (Req.dueDate b) = None ->
  postTodo now b s
  = (res 500 (Failed "Failed to create todo"
                (Some (ValidationError ["dueDate"]))),
     {| todos := todos s; nextId := S (nextId s); conn := conn s;
        issued := issued s |}).
Proof.
  intros Ht Hx Hd Hn. run. rewrite Ht, Hd. simpl.
  apply trim_nonempty in Hx as Hx'. apply String.eqb_neq in Hx'.
  rewrite Hx'. simpl. unfold new_Date in Hn. rewrite Hn.
  rewrite trim_idempotent. apply String.eqb_neq in Hx. now rewrite Hx.
Qed.

(** The four ways [POST /todos] can end. *)
Lemma postTodo_outcome (now : Z) (b : Req.body) (s : Server) :
  ((truthy (Req.task b) = false \/ truthy (Req.dueDate b) = false)
   /\ statusCode (fst (postTodo now b s)) = 400
   /\ snd (postTodo now b s) = s)
  \/ (truthy (Req.task b) = true /\ truthy (Req.dueDate b) = true
      /\ ~ creatable b
      /\ statusCode (fst (postTodo now b s)) = 500
      /\ todos (snd (postTodo now b s)) = todos s
      /\ issued (snd (postTodo now b s)) = issued s)
  \/ (creatable b /\ conn s <> None
      /\ statusCode (fst (postTodo now b s)) = 500
      /\ todos (snd (postTodo now b s)) = todos s
      /\ issued (snd (postTodo now b s)) = issued s ++ [InsertOne (nextId s)])
  \/ (exists x d,
        Req.task b = Some (JStr x) /\ trim x <> ""
        /\ truthy (Req.dueDate b) = true /\ new_Date (Req.dueDate b) = Some d
        /\ conn s = None
        /\ fst (postTodo now b s) = res 201 (TodoDoc (created s now x d))
        /\ todos (snd (postTodo now b s)) = todos s ++ [created s now x d]
        /\ issued (snd (postTodo now b s))
           = issued s ++ [InsertOne (nextId s)]).
Proof.
  destruct (truthy (Req.task b)) eqn:Ht;
    [|left; rewrite postTodo_missing by auto; rewrite Ht; auto].
  destruct (truthy (Req.dueDate b)) eqn:Hd;
    [|left; rewrite postTodo_missing by auto; rewrite Ht, Hd; auto].
  right.
  assert (Htask : (exists x, Req.task b = Some (JStr x))
                  \/ forall x, Req.task b <> Some (JStr x)).
  { destruct (Req.task b) as [[| | |x| |]|]; eauto; right; discriminate. }
  destruct Htask as [[x Etask]|Hno].
  - assert (Hx : x <> "").
    { apply truthy_JStr. now rewrite <- Etask. }
    destruct (String.eqb_spec (trim x) "") as [Hb|Hb].
    + left. destruct (postTodo_blank now b s x Etask Hx Hb Hd) as [paths E].
      rewrite E. repeat split.
      intros (y & d & Ey & Hy & _). congruence.
    + destruct (new_Date (Req.dueDate b)) as [d|] eqn:Hn.
      * right. destruct (conn s) as [msg|] eqn:Hc.
        -- left. rewrite (postTodo_failing now b s x msg d Etask Hb Hd Hn Hc).
           repeat split; [exists x, d; auto | discriminate].
        -- right. exists x, d.
           rewrite (postTodo_created now b s x d Etask Hb Hd Hn Hc).
           repeat split; auto.
      * left. rewrite (postTodo_unreadable_date now b s x Etask Hb Hd Hn).
        repeat split.
        intros (y & d & _ & _ & _ & Hy). congruence.
  - left. rewrite (postTodo_TypeError now b s Ht Hd Hno).
    repeat split. intros (y & d & Ey & _). now destruct (Hno y).
Qed.

(** The four ways [PUT /todos/:id] can end. *)
Lemma putTodo_outcome (now : Z) (id : string) (b : Req.body) (s : Server) :
  (snd (putTodo now id b s) = s
   /\ (statusCode (fst (putTodo now id b s)) = 400
       \/ statusCode (fst (putTodo now id b s)) = 500))
  \/ (exists o,
        castObjectId id = Some o /\ acceptable b /\ conn s <> None
        /\ statusCode (fst (putTodo now id b s)) = 500
        /\ snd (putTodo now id b s) = issue (FindOneAndUpdate o) s)
  \/ (exists o,
        castObjectId id = Some o /\ acceptable b /\ conn s = None
        /\ absent o (todos s)
        /\ fst (putTodo now id b s) = res 404 (Message "Todo not found")
        /\ snd (putTodo now id b s) = issue (FindOneAndUpdate o) s)
  \/ (exists o l1 t l2,
        castObjectId id = Some o /\ acceptable b /\ conn s = None
        /\ todos s = l1 ++ t :: l2 /\ absent o l1 /\ _id t = o
        /\ fst (putTodo now id b s) = res 200 (TodoDoc (updateOf now b t))
        /\ snd (putTodo now id b s)
           = setTodos (l1 ++ updateOf now b t :: l2)
                      (issue (FindOneAndUpdate o) s)).
Proof.
  destruct (castObjectId id) as [o|] eqn:Ho.
  - destruct (putTodo_cases now id o b s Ho) as [Hb|[Hcode Hs]];
      [|left; now split].
    right. rewrite (putTodo_acceptable now id o b s Ho Hb).
    destruct (conn s) as [msg|] eqn:Hc.
    + left. exists o. split; [reflexivity|]. split; [exact Hb|].
      repeat split; auto; discriminate.
    + right.
      destruct (updateOne o (updateOf now b) (todos s)) as [[u l]|] eqn:E.
      * right.
        apply updateOne_Some in E as (l1 & t & l2 & E1 & -> & -> & Ht & Hl1).
        exists o, l1, t, l2. split; [reflexivity|]. split; [exact Hb|].
        repeat split; auto.
      * left. apply updateOne_None in E. exists o.
        split; [reflexivity|]. split; [exact Hb|]. repeat split; auto.
  - left. rewrite putTodo_invalid; [simpl; auto|].
    unfold ObjectId_isValid. now rewrite Ho.
Qed.

(** The four ways [DELETE /todos/:id] can end. *)
Lemma deleteTodo_outcome (id : string) (s : Server) :
  (castObjectId id = None
   /\ deleteTodo id s = (res 400 (Message "Invalid todo ID format"), s))
  \/ (exists o,
        castObjectId id = Some o /\ conn s <> None
        /\ statusCode (fst (deleteTodo id s)) = 500
        /\ snd (deleteTodo id s) = issue (FindOneAndDelete o) s)
  \/ (exists o,
        castObjectId id = Some o /\ conn s = None /\ absent o (todos s)
        /\ deleteTodo id s
           = (res 404 (Message "Todo not found"),
              issue (FindOneAndDelete o) s))
  \/ (exists o l1 t l2,
        castObjectId id = Some o /\ conn s = None
        /\ todos s = l1 ++ t :: l2 /\ absent o l1 /\ _id t = o
        /\ deleteTodo id s
           = (res 200 (Deleted "Todo deleted successfully" t),
              setTodos (l1 ++ l2) (issue (FindOneAndDelete o) s))).
Proof.
  destruct (castObjectId id) as [o|] eqn:Ho.
  - right. destruct (conn s) as [msg|] eqn:Hc.
    + left. exists o. rewrite (deleteTodo_failing id msg o s Ho Hc).
      repeat split; auto; discriminate.
    + right. rewrite (deleteTodo_connected id o s Ho Hc).
      destruct (deleteOne o (todos s)) as [[t l]|] eqn:E.
      * right. apply deleteOne_Some in E as (l1 & l2 & E1 & -> & Ht & Hl1).
        exists o, l1, t, l2. repeat split; auto.
      * left. apply deleteOne_None in E. exists o. repeat split; auto.
  - left. split; [reflexivity|]. apply deleteTodo_invalid.
    unfold ObjectId_isValid. now rewrite Ho.
Qed.

(** X1.  Each route answers with one of the status codes of its handler:
    200 or 500 for GET, 201, 400 or 500 for POST, and 200, 400, 404 or 500
    for PUT and DELETE. *)
Theorem route_status_codes (r : Request) (s : Server) :
  In (statusCode (fst (route r s))) (codes r).
Proof.
  destruct r as [|now b|now id b|id]; simpl.
  - destruct (conn s) as [msg|] eqn:Hc.
    + rewrite (getTodos_failing s msg Hc). simpl. auto.
    + rewrite (getTodos_connected s Hc). simpl. auto.
  - destruct (postTodo_outcome now b s)
      as [(_ & -> & _)|[(_ & _ & _ & -> & _)|[(_ & _ & -> & _)
          |(x & d & _ & _ & _ & _ & _ & -> & _)]]]; simpl; auto.
  - destruct (putTodo_outcome now id b s)
      as [(_ & [-> | ->])|[(o & _ & _ & _ & -> & _)|[(o & _ & _ & _ & _ & -> & _)
          |(o & l1 & t & l2 & _ & _ & _ & _ & _ & _ & -> & _)]]]; simpl; auto.
  - destruct (deleteTodo_outcome id s)
      as [(_ & ->)|[(o & _ & _ & -> & _)|[(o & _ & _ & _ & ->)
          |(o & l1 & t & l2 & _ & _ & _ & _ & _ & ->)]]]; simpl; auto.
Qed.

(** X2.  A request that is not answered with a 2xx status leaves the
    collection as it was: no record is added, changed or removed on an
    error path of any handler. *)
Theorem route_error_keeps_collection (r : Request) (s : Server) :
  Client.ok (fst (route r s)) = false ->
  todos (snd (route r s)) = todos s.
Proof.
  destruct r as [|now b|now id b|id]; simpl.
  - intros _. destruct (conn s) as [msg|] eqn:Hc.
    + now rewrite (getTodos_failing s msg Hc).
    + now rewrite (getTodos_connected s Hc).
  - destruct (postTodo_outcome now b s)
      as [(_ & _ & ->)|[(_ & _ & _ & _ & -> & _)|[(_ & _ & _ & -> & _)
          |(x & d & _ & _ & _ & _ & _ & -> & _)]]]; auto.
    discriminate.
  - destruct (putTodo_outcome now id b s)
      as [(-> & _)|[(o & _ & _ & _ & _ & ->)|[(o & _ & _ & _ & _ & _ & ->)
          |(o & l1 & t & l2 & _ & _ & _ & _ & _ & _ & -> & _)]]]; auto.
    discriminate.
  - destruct (deleteTodo_outcome id s)
      as [(_ & ->)|[(o & _ & _ & _ & ->)|[(o & _ & _ & _ & ->)
          |(o & l1 & t & l2 & _ & _ & _ & _ & _ & ->)]]]; auto.
    discriminate.
Qed.

(** X3.  A request makes the server send at most one command to the
    database.  None is sent when the answer is 400, and exactly one when
    the answer is 200, 201 or 404. *)
Theorem route_commands (r : Request) (s : Server) :
  exists cmds,
    issued (snd (route r s)) = issued s ++ cmds
    /\ List.length cmds <= 1
    /\ (statusCode (fst (route r s)) = 400 -> cmds = [])
    /\ (In (statusCode (fst (route r s))) [200; 201; 404] ->
        List.length cmds = 1).
Proof.
  assert (Hnone : forall code : nat,
            code = 400 \/ code = 500 ->
            exists cmds : list Command,
              issued s = issued s ++ cmds /\ List.length cmds <= 1
              /\ (code = 400 -> cmds = [])
              /\ (In code [200; 201; 404] -> List.length cmds = 1)).
  { intros code Hcode. exists []. rewrite app_nil_r.
    repeat split; auto. simpl. intros H. lia. }
  assert (Hone : forall (code : nat) (c : Command),
            code <> 400 ->
            exists cmds : list Command,
              issued s ++ [c] = issued s ++ cmds /\ List.length cmds <= 1
              /\ (code = 400 -> cmds = [])
              /\ (In code [200; 201; 404] -> List.length cmds = 1)).
  { intros code c Hcode. exists [c]. repeat split; auto. intros H.
    now destruct Hcode. }
  destruct r as [|now b|now id b|id]; simpl.
  - destruct (conn s) as [msg|] eqn:Hc.
    + rewrite (getTodos_failing s msg Hc). apply Hone. discriminate.
    + rewrite (getTodos_connected s Hc). apply Hone. discriminate.
  - destruct (postTodo_outcome now b s)
      as [(_ & -> & ->)|[(_ & _ & _ & -> & _ & ->)|[(_ & _ & -> & _ & ->)
          |(x & d & _ & _ & _ & _ & _ & -> & _ & ->)]]];
      try (apply Hnone; auto); apply Hone; discriminate.
  - destruct (putTodo_outcome now id b s)
      as [(-> & Hcode)|[(o & _ & _ & _ & -> & ->)|[(o & _ & _ & _ & _ & -> & ->)
          |(o & l1 & t & l2 & _ & _ & _ & _ & _ & _ & -> & ->)]]];
      try (apply Hnone; auto); apply Hone; discriminate.
  - destruct (deleteTodo_outcome id s)
      as [(_ & ->)|[(o & _ & _ & -> & ->)|[(o & _ & _ & _ & ->)
          |(o & l1 & t & l2 & _ & _ & _ & _ & _ & ->)]]];
      try (apply Hnone; auto); apply Hone; discriminate.
Qed.

(** X4.  [POST /todos] answers 400 exactly when [task] or [dueDate] is
    falsy (absent, [null], [false], [0] or the empty string), and 201
    exactly when the body is creatable and the database accepts the
    insert. *)
Theorem postTodo_status (now : Z) (b : Req.body) (s : Server) :
  (statusCode (fst (postTodo now b s)) = 400
   <-> truthy (Req.task b) = false \/ truthy (Req.dueDate b) = false)
  /\ (statusCode (fst (postTodo now b s)) = 201
      <-> creatable b /\ conn s = None).
Proof.
  destruct (postTodo_outcome now b s)
    as [(Hf & Hcode & _)|[(Ht & Hd & Hn & Hcode & _)|[(Hv & Hc & Hcode & _)
        |(x & d & Ht & Hx & Hd & Hn & Hc & Hres & _)]]];
    rewrite ?Hcode, ?Hres; simpl.
  - split; split; auto; try discriminate.
    intros [(x & d & Ht & Hx & Hd & _) _].
    apply trim_nonempty in Hx. destruct Hf as [Hf|Hf]; [|congruence].
    rewrite Ht in Hf. simpl in Hf. apply String.eqb_neq in Hx.
    rewrite Hx in Hf. discriminate.
  - split; split; try discriminate.
    + intros [H|H]; congruence.
    + intros [H _]. now destruct Hn.
  - split; split; try discriminate.
    + destruct Hv as (x & d & Ht & Hx & Hd & _).
      apply trim_nonempty in Hx. apply String.eqb_neq in Hx.
      intros [H|H]; [|congruence].
      rewrite Ht in H. simpl in H. rewrite Hx in H. discriminate.
    + intros [_ H]. now destruct Hc.
  - split; split; auto; try discriminate.
    + apply trim_nonempty in Hx. apply String.eqb_neq in Hx.
      intros [H|H]; [|congruence].
      rewrite Ht in H. simpl in H. rewrite Hx in H. discriminate.
    + intros _. split; [|exact Hc]. exists x, d. auto.
Qed.

(** X5.  A [POST /todos] whose [task] is truthy and not a string (a
    number, [true], an array, an object), with a truthy [dueDate], is
    answered 500 by the [catch] block ([task.trim] is not a function); no
    ObjectId is generated, no command is sent and nothing is stored. *)
Theorem postTodo_task_not_a_string (now : Z) (b : Req.body) (s : Server) :
  truthy (Req.task b) = true -> truthy (Req.dueDate b) = true ->
  (forall x, Req.task b <> Some (JStr x)) ->
  fst (postTodo now b s)
  = res 500 (Failed "Failed to create todo" (Some TypeError))
  /\ snd (postTodo now b s) = s.
Proof.
  intros Ht Hd Hx. now rewrite (postTodo_TypeError now b s Ht Hd Hx).
Qed.

Lemma valid_created (s : Server) (now : Z) (x : string) (d : Z) :
  trim x <> "" -> valid (created s now x d).
Proof.
  intros Hx. repeat split; simpl; auto. apply trim_idempotent.
Qed.

Lemma valid_updateOf (now : Z) (b : Req.body) (t : Todo) :
  acceptable b -> valid t -> valid (updateOf now b t).
Proof.
  intros (Ht & _ & Hs) (H1 & H2 & H3).
  unfold valid, updateOf, taskSet, statusSet, applyUpdate. simpl.
  repeat split.
  - destruct Ht as [-> | (x & -> & Hx)]; auto.
  - destruct Ht as [-> | (x & -> & Hx)]; auto. apply trim_idempotent.
  - destruct Hs as [-> | (y & -> & Hy)]; auto.
Qed.

Lemma clean_route (r : Request) (s : Server) :
  clean s -> clean (snd (route r s)).
Proof.
  unfold clean. intros H.
  destruct r as [|now b|now id b|id]; simpl.
  - destruct (conn s) as [msg|] eqn:Hc.
    + now rewrite (getTodos_failing s msg Hc).
    + now rewrite (getTodos_connected s Hc).
  - destruct (postTodo_outcome now b s)
      as [(_ & _ & ->)|[(_ & _ & _ & _ & -> & _)|[(_ & _ & _ & -> & _)
          |(x & d & _ & Hx & _ & _ & _ & _ & -> & _)]]]; auto.
    apply Forall_app. split; [exact H|].
    constructor; [now apply valid_created | constructor].
  - destruct (putTodo_outcome now id b s)
      as [(-> & _)|[(o & _ & _ & _ & _ & ->)|[(o & _ & _ & _ & _ & _ & ->)
          |(o & l1 & t & l2 & _ & Hb & _ & E & _ & _ & _ & ->)]]]; auto.
    simpl. rewrite E in H. apply Forall_app in H as [H1 H2].
    apply Forall_app. split; [exact H1|].
    inversion H2; subst. constructor; [now apply valid_updateOf | assumption].
  - destruct (deleteTodo_outcome id s)
      as [(_ & ->)|[(o & _ & _ & _ & ->)|[(o & _ & _ & _ & ->)
          |(o & l1 & t & l2 & _ & _ & E & _ & _ & ->)]]]; auto.
    simpl. rewrite E in H. apply Forall_app in H as [H1 H2].
    apply Forall_app. split; [exact H1 | now inversion H2].
Qed.

(** X6.  The handlers keep the records as the schema wants them: when
    every stored task is trimmed and not empty and every stored status is
    pending or completed, this is still so after any sequence of requests
    and of losses and recoveries of the database connection. *)
Theorem clean_afterAll (es : list Event) (s : Server) :
  clean s -> clean (afterAll es s).
Proof.
  unfold afterAll. revert s.
  induction es as [|e es IH]; simpl; intros s H; [exact H|].
  apply IH. destruct e as [r|msg|]; simpl; [now apply clean_route | |];
    exact H.
Qed.

Lemma filter_hasId_unique (l1 l2 : list Todo) (t : Todo) :
  NoDup (map _id (l1 ++ t :: l2)) ->
  filter (hasId (_id t)) (l1 ++ t :: l2) = [t].
Proof.
  intros H. apply NoDup_ids_split in H as [Habs _].
  rewrite filter_app. simpl. unfold hasId at 2. rewrite Nat.eqb_refl.
  rewrite !filter_hasId_absent; [reflexivity| |];
    intros x Hx; apply Habs; apply in_or_app; auto.
Qed.

(** X7.  A second [DELETE] of a record that was just deleted is answered
    404 and changes nothing, and so is a [PUT] on its id with an
    acceptable body. *)
Theorem deleteTodo_twice (now : Z) (id : string) (o : ObjectId) (t : Todo)
  (b : Req.body) (s : Server) :
  wf s -> conn s = None ->
  castObjectId id = Some o -> In t (todos s) -> _id t = o ->
  acceptable b ->
  fst (deleteTodo id (snd (deleteTodo id s)))
  = res 404 (Message "Todo not found")
  /\ todos (snd (deleteTodo id (snd (deleteTodo id s))))
     = todos (snd (deleteTodo id s))
  /\ fst (putTodo now id b (snd (deleteTodo id s)))
     = res 404 (Message "Todo not found").
Proof.
  intros [Hn _] Hc Ho Hin Hid Hb.
  destruct (deleteTodo_outcome id s)
    as [(H & _)|[(o' & _ & H & _)|[(o' & Ho' & _ & Habs & _)
        |(o' & l1 & u & l2 & Ho' & _ & E & _ & Hu & ->)]]];
    try congruence.
  - assert (o' = o) by congruence. subst o'. now destruct (Habs t Hin).
  - assert (Eo : o' = o) by congruence. rewrite Eo in *. clear Eo Ho'.
    cbn [fst snd]. rewrite E in Hn.
    apply NoDup_ids_split in Hn as [Habs _]. rewrite Hu in Habs.
    set (s1 := setTodos (l1 ++ l2) (issue (FindOneAndDelete o) s)).
    assert (Hc1 : conn s1 = None) by exact Hc.
    rewrite (deleteTodo_connected id o s1 Ho Hc1).
    rewrite (putTodo_acceptable now id o b s1 Ho Hb), Hc1.
    change (todos s1) with (l1 ++ l2).
    apply (updateOne_None o (updateOf now b)) in Habs as Hupd.
    apply deleteOne_None in Habs as Hdel.
    rewrite Hupd, Hdel. auto.
Qed.

(** X8.  After a [PUT] that answered 200 on a well-formed collection,
    [GET /todos] lists the record that the [PUT] returned, and no other
    record with its id. *)
Theorem putTodo_then_getTodos (now : Z) (id : string) (b : Req.body)
  (s : Server) (t' : Todo) :
  wf s -> fst (putTodo now id b s) = res 200 (TodoDoc t') ->
  exists out,
    fst (getTodos (snd (putTodo now id b s))) = res 200 (TodoList out)
    /\ filter (hasId (_id t')) out = [t'].
Proof.
  intros Hwf H. pose proof (wf_putTodo now id b s Hwf) as [Hn _].
  destruct (putTodo_outcome now id b s)
    as [(_ & [Hcode|Hcode])|[(o & _ & _ & _ & Hcode & _)
        |[(o & _ & _ & _ & _ & Hres & _)
        |(o & l1 & t & l2 & Ho & Hb & Hc & E & Hl1 & Ht & Hres & Hs)]]];
    try (rewrite H in Hcode; discriminate);
    try (rewrite H in Hres; discriminate).
  rewrite H in Hres. injection Hres as ->.
  rewrite Hs in *. cbn [todos setTodos] in Hn.
  rewrite getTodos_connected by exact Hc. cbn [fst todos setTodos].
  eexists. split; [reflexivity|].
  apply Permutation_length_1_inv.
  rewrite <- (filter_perm _ _ _ (sortTodos_perm _)).
  now rewrite filter_hasId_unique.
Qed.

Lemma updateOf_again (now now' : Z) (b : Req.body) (t : Todo) :
  updateOf now' b (updateOf now b t) = touched now' (updateOf now b t).
Proof.
  unfold updateOf, touched, applyUpdate. simpl.
  destruct (taskSet b), (new_Date (Req.dueDate b)), (statusSet b);
    reflexivity.
Qed.

(** X9.  [PUT] is idempotent up to the time stamp: when a [PUT] answered
    200 with a record, the same [PUT] sent again answers 200 with the same
    record, in which only [updatedAt] is set anew. *)
Theorem putTodo_again (now now' : Z) (id : string) (b : Req.body)
  (s : Server) (t1 : Todo) :
  fst (putTodo now id b s) = res 200 (TodoDoc t1) ->
  fst (putTodo now' id b (snd (putTodo now id b s)))
  = res 200 (TodoDoc (touched now' t1)).
Proof.
  intros H.
  destruct (putTodo_outcome now id b s)
    as [(_ & [Hcode|Hcode])|[(o & _ & _ & _ & Hcode & _)
        |[(o & _ & _ & _ & _ & Hres & _)
        |(o & l1 & t & l2 & Ho & Hb & Hc & E & Hl1 & Ht & Hres & Hs)]]];
    try (rewrite H in Hcode; discriminate);
    try (rewrite H in Hres; discriminate).
  rewrite H in Hres. injection Hres as ->. rewrite Hs.
  rewrite (putTodo_acceptable now' id o b _ Ho Hb).
  cbn [conn setTodos issue todos]. rewrite Hc.
  rewrite (updateOne_split o _ l1 l2 (updateOf now b t) Hl1 Ht).
  now rewrite updateOf_again.
Qed.

(** X10.  On a connected server with a well-formed collection, a [PUT]
    on the id of a stored record with an acceptable body answers 200 with
    that record updated; with the empty body [{}] the record comes back
    with nothing but [updatedAt] changed. *)
Theorem putTodo_stored (now : Z) (id : string) (o : ObjectId) (t : Todo)
  (b : Req.body) (s : Server) :
  wf s -> conn s = None ->
  castObjectId id = Some o -> In t (todos s) -> _id t = o ->
  acceptable b ->
  fst (putTodo now id b s) = res 200 (TodoDoc (updateOf now b t))
  /\ fst (putTodo now id emptyBody s) = res 200 (TodoDoc (touched now t)).
Proof.
  intros [Hn _] Hc Ho Hin Hid Hb.
  assert (He : acceptable emptyBody) by (repeat split; now left).
  assert (Hup : forall f, exists l, updateOne o f (todos s) = Some (f t, l)).
  { intros f. destruct (updateOne o f (todos s)) as [[u l]|] eqn:E.
    - apply updateOne_Some in E as (l1 & t0 & l2 & E1 & _ & -> & Ht0 & _).
      assert (t0 = t) as ->; [|eauto].
      apply (NoDup_ids_unique (todos s)); auto; [|congruence].
      rewrite E1. apply in_elt.
    - apply updateOne_None in E. now destruct (E t Hin). }
  rewrite (putTodo_acceptable now id o b s Ho Hb).
  rewrite (putTodo_acceptable now id o emptyBody s Ho He). rewrite Hc.
  destruct (Hup (updateOf now b)) as [l ->].
  destruct (Hup (updateOf now emptyBody)) as [l' ->].
  split; reflexivity.
Qed.

(** X11.  No request changes the id or the creation time of a record, and
    only [POST] adds one: a record stored after a request was stored
    before it with the same [_id] and [createdAt], or it is the record a
    [POST] has just created, with the next ObjectId and the time of the
    request as [createdAt]. *)
Theorem route_keeps_createdAt (r : Request) (s : Server) (t' : Todo) :
  In t' (todos (snd (route r s))) ->
  (exists t, In t (todos s) /\ _id t = _id t' /\ createdAt t = createdAt t')
  \/ (exists now b,
        r = POST_todos now b /\ _id t' = nextId s /\ createdAt t' = now).
Proof.
  assert (Hsame : In t' (todos s) ->
            (exists t, In t (todos s) /\ _id t = _id t'
                       /\ createdAt t = createdAt t')
            \/ (exists now b,
                  r = POST_todos now b /\ _id t' = nextId s
                  /\ createdAt t' = now)).
  { intros H. left. exists t'. auto. }
  destruct r as [|now b|now id b|id]; simpl.
  - destruct (conn s) as [msg|] eqn:Hc.
    + now rewrite (getTodos_failing s msg Hc).
    + now rewrite (getTodos_connected s Hc).
  - destruct (postTodo_outcome now b s)
      as [(_ & _ & ->)|[(_ & _ & _ & _ & -> & _)|[(_ & _ & _ & -> & _)
          |(x & d & _ & _ & _ & _ & _ & _ & -> & _)]]]; auto.
    intros H. apply in_app_or in H as [H|[<-|[]]]; auto.
    right. exists now, b. auto.
  - destruct (putTodo_outcome now id b s)
      as [(-> & _)|[(o & _ & _ & _ & _ & ->)|[(o & _ & _ & _ & _ & _ & ->)
          |(o & l1 & t & l2 & _ & _ & _ & E & _ & _ & _ & ->)]]]; auto.
    simpl. rewrite E. intros H. left.
    apply in_app_or in H as [H|[<-|H]].
    + exists t'. split; [apply in_or_app; auto | auto].
    + exists t. split; [apply in_elt | auto].
    + exists t'. split; [apply in_or_app; simpl; auto | auto].
  - destruct (deleteTodo_outcome id s)
      as [(_ & ->)|[(o & _ & _ & _ & ->)|[(o & _ & _ & _ & ->)
          |(o & l1 & t & l2 & _ & _ & E & _ & _ & ->)]]]; auto.
    simpl. rewrite E. intros H. left. exists t'. split; [|auto].
    apply in_app_or in H as [H|H]; apply in_or_app; simpl; auto.
Qed.

End Outcomes.

(** ** The manager and its cache *)


Section Cache.
Context {R : Runtime} {E : Client.ErrorText}.



(** The two ways [getTodos] of the manager can end. *)
Lemma refresh_cases (w : Client.World) :
  (conn (Client.server w) = None
   /\ Client.getTodos w
      = (inr (listing (Client.server w)),
         {| Client.todos := listing (Client.server w);
            Client.server := issue Find (Client.server w) |}))
  \/ (conn (Client.server w) <> None
      /\ Client.getTodos w
         = (inl (Client.mkError "Network error or server is not running"),
            {| Client.todos := Client.todos w;
               Client.server := issue Find (Client.server w) |})).
Proof.
  unfold Client.getTodos. destruct (conn (Client.server w)) as [msg|] eqn:Hc.
  - right. split; [discriminate|].
    now rewrite (getTodos_failing _ msg Hc).
  - left. split; [reflexivity|].
    now rewrite (getTodos_connected _ Hc).
Qed.

(** The replies of [POST /todos]. *)
Lemma postTodo_reply (now : Z) (b : Req.body) (s : Server) :
  statusCode (fst (postTodo now b s)) <> 201 ->
  (exists dt dd,
     fst (postTodo now b s)
     = res 400 (Details "Task and due date are required" dt dd))
  \/ (exists e,
        fst (postTodo now b s)
        = res 500 (Failed "Failed to create todo" (Some e))).
Proof.
  intros Hcode.
  destruct (truthy (Req.task b)) eqn:Ht;
    [|left; rewrite postTodo_missing by auto; simpl; eauto].
  destruct (truthy (Req.dueDate b)) eqn:Hd;
    [|left; rewrite postTodo_missing by auto; simpl; eauto].
  right.
  assert (Htask : (exists x, Req.task b = Some (JStr x))
                  \/ forall x, Req.task b <> Some (JStr x)).
  { destruct (Req.task b) as [[| | |x| |]|]; eauto; right; discriminate. }
  destruct Htask as [[x Etask]|Hno];
    [|rewrite (postTodo_TypeError now b s Ht Hd Hno); simpl; eauto].
  assert (Hx : x <> "").
  { apply truthy_JStr. now rewrite <- Etask. }
  destruct (String.eqb_spec (trim x) "") as [Hb|Hb].
  - destruct (postTodo_blank now b s x Etask Hx Hb Hd) as [paths ->]. simpl. eauto.
  - destruct (new_Date (Req.dueDate b)) as [d|] eqn:Hn;
      [|rewrite (postTodo_unreadable_date now b s x Etask Hb Hd Hn); simpl; eauto].
    destruct (conn s) as [msg|] eqn:Hc.
    + rewrite (postTodo_failing now b s x msg d Etask Hb Hd Hn Hc). simpl. eauto.
    + rewrite (postTodo_created now b s x d Etask Hb Hd Hn Hc) in Hcode.
      now destruct Hcode.
Qed.

(** The two ways [addTodo] can end. *)
Lemma addTodo_cases (now : Z) (task dueDate : value) (w : Client.World) :
  (exists t,
     Client.addTodo now task dueDate w
     = (inr (Client.toJSON t),
        {| Client.todos := Client.todos w ++ [Client.toJSON t];
           Client.server := snd (postTodo now
               {| Req.task := task; Req.dueDate := dueDate;
                  Req.status := None |} (Client.server w)) |})
     /\ todos (snd (postTodo now
               {| Req.task := task; Req.dueDate := dueDate;
                  Req.status := None |} (Client.server w)))
        = todos (Client.server w) ++ [t]
     /\ status t = "pending")
  \/ (exists m,
        Client.addTodo now task dueDate w
        = (inl (Client.mkError m),
           {| Client.todos := Client.todos w;
              Client.server := snd (postTodo now
                  {| Req.task := task; Req.dueDate := dueDate;
                     Req.status := None |} (Client.server w)) |})
        /\ todos (snd (postTodo now
                  {| Req.task := task; Req.dueDate := dueDate;
                     Req.status := None |} (Client.server w)))
           = todos (Client.server w)
        /\ ((m = "Task and due date are required"
             /\ (truthy task = false \/ truthy dueDate = false))
            \/ (m = "Failed to create todo"
                /\ truthy task = true /\ truthy dueDate = true))).
Proof.
  unfold Client.addTodo.
  set (b := {| Req.task := task; Req.dueDate := dueDate;
               Req.status := None |}).
  pose proof (postTodo_reply now b (Client.server w)) as Hreply.
  destruct (postTodo_outcome now b (Client.server w))
    as [(Hf & Hcode & Hs)|[(Ht & Hd & _ & Hcode & Hs & _)
        |[(Hv & _ & Hcode & Hs & _)
        |(x & d & _ & _ & _ & _ & _ & Hres & Hs & _)]]].
  - right. rewrite Hcode in Hreply.
    destruct Hreply as [(dt & dd & Hr)|(e & Hr)]; [discriminate| |];
      rewrite Hr in Hcode; [|discriminate].
    destruct (postTodo now b (Client.server w)) as [response srv].
    simpl in *. subst response srv. simpl. eexists. split; [reflexivity|].
    auto.
  - right. rewrite Hcode in Hreply.
    destruct Hreply as [(dt & dd & Hr)|(e & Hr)]; [discriminate| |];
      rewrite Hr in Hcode; [discriminate|].
    destruct (postTodo now b (Client.server w)) as [response srv].
    simpl in *. subst response. simpl. eexists. split; [reflexivity|].
    auto.
  - right. rewrite Hcode in Hreply.
    destruct Hreply as [(dt & dd & Hr)|(e & Hr)]; [discriminate| |];
      rewrite Hr in Hcode; [discriminate|].
    destruct Hv as (x & d & Ht & Hx & Hd & _).
    assert (Ht' : truthy task = true).
    { simpl in Ht. rewrite Ht. simpl. apply trim_nonempty in Hx.
      apply String.eqb_neq in Hx. now rewrite Hx. }
    destruct (postTodo now b (Client.server w)) as [response srv].
    simpl in *. subst response. simpl. eexists. split; [reflexivity|].
    auto.
  - left. exists (created (Client.server w) now x d).
    destruct (postTodo now b (Client.server w)) as [response srv].
    simpl in *. subst response. simpl. auto.
Qed.













(** X12.  [getTodos] of the manager either resolves with the listing of
    the server, which replaces the cache whatever it held and leaves it
    coherent with the collection, or it throws "Network error or server is
    not running" (the message of the reply is thrown inside the [try] and
    never reaches the caller) and the cache is as before. *)
Theorem getTodos_refresh (w : Client.World) :
  match fst (Client.getTodos w) with
  | inr todos =>
      todos = listing (Client.server w)
      /\ Client.todos (snd (Client.getTodos w)) = todos
      /\ coherent (snd (Client.getTodos w))
  | inl error =>
      error = Client.mkError "Network error or server is not running"
      /\ conn (Client.server w) <> None
      /\ Client.todos (snd (Client.getTodos w)) = Client.todos w
  end.
Proof.
  destruct (refresh_cases w) as [[Hc ->]|[Hc ->]]; simpl; auto.
  repeat split. unfold coherent, listing. simpl.
  apply Permutation_map. symmetry. apply sortTodos_perm.
Qed.




End Cache.

(** ** The page *)

Section Page.
Context {R : Runtime} {E : Client.ErrorText}.

(** The table is drawn from the listing that has just replaced the
    cache. *)
Lemma refresh_draws (w : Client.World) :
  match Client.getTodos w with
  | (inr l, w') =>
      l = Client.todos w' /\ l = listing (Client.server w')
      /\ todos (Client.server w') = todos (Client.server w)
  | (inl error, w') =>
      error = Client.mkError "Network error or server is not running"
  end.
Proof.
  destruct (refresh_cases w) as [[_ ->]|[_ ->]]; auto.
Qed.

(** X16.  When the form holds a task that is not blank and a date that
    [new Date] can read, and the database is connected, a click on the add
    button stores one record with the trimmed task, empties both inputs,
    redraws the table with the listing of the server, which the cache now
    holds too, and shows the success alert. *)
Theorem handleAddTodo_adds (now : Z) (p : UI.Page) (d : Z) :
  trim (UI.taskInput p) <> "" -> UI.dateInput p <> "" ->
  newDate (JStr (UI.dateInput p)) = Some d ->
  conn (Client.server (UI.world p)) = None ->
  let p' := UI.handleAddTodo now p in
  let s := Client.server (UI.world p) in
  todos (Client.server (UI.world p'))
  = todos s ++ [{| _id := nextId s; task := trim (UI.taskInput p);
                   dueDate := d; status := "pending"; createdAt := now;
                   updatedAt := now |}]
  /\ UI.taskInput p' = "" /\ UI.dateInput p' = ""
  /\ UI.rows p' = listing (Client.server (UI.world p'))
  /\ Client.todos (UI.world p') = UI.rows p'
  /\ UI.alerts p' = UI.alerts p ++ [("Task added successfully!", "success")].
Proof.
  intros Ht Hd Hn Hc p' s. subst p' s. unfold UI.handleAddTodo.
  apply String.eqb_neq in Ht as Ht'. apply String.eqb_neq in Hd as Hd'.
  rewrite Ht', Hd'. simpl. unfold Client.addTodo.
  assert (Ht2 : trim (trim (UI.taskInput p)) <> "")
    by now rewrite trim_idempotent.
  set (b := {| Req.task := Some (JStr (trim (UI.taskInput p)));
               Req.dueDate := Some (JStr (UI.dateInput p));
               Req.status := None |}).
  rewrite (postTodo_created now b (Client.server (UI.world p))
             (trim (UI.taskInput p)) d);
    [| reflexivity | exact Ht2 | simpl; now rewrite Hd' | exact Hn
     | exact Hc].
  cbn -[Client.getTodos listing].
  match goal with
  | |- context [Client.getTodos ?w] =>
      destruct (refresh_cases w) as [[_ ->]|[Hx _]]; [|now destruct Hx]
  end.
  simpl. unfold created. rewrite trim_idempotent. repeat split.
Qed.

(** When both [fetch]es deliver, the handler with outcomes is the handler
    of the page. *)
Lemma handleAddTodoVia_Delivered (now : Z) (p : UI.Page) :
  UI.handleAddTodoVia Client.Delivered Client.Delivered now p
  = UI.handleAddTodo now p.
Proof. reflexivity. Qed.

(** X17.  A click on the add button shows exactly one alert.  It is the
    request to fill both inputs (nothing is sent then), the success
    message, "Failed to create todo", the network error of the refresh,
    or, when the [fetch] of [addTodo] rejects, the message of that
    rejection ("Failed to add task" when it is empty).  The page does not
    send a body with an empty task or date, so the message of the 400
    reply of the server is not among them. *)
Theorem handleAddTodoVia_alert (add refresh : Client.Fetch) (now : Z)
  (p : UI.Page) :
  exists alert,
    UI.alerts (UI.handleAddTodoVia add refresh now p) = UI.alerts p ++ [alert]
    /\ ((trim (UI.taskInput p) = "" \/ UI.dateInput p = "") ->
        alert = ("Please enter both task and due date", "error")
        /\ UI.world (UI.handleAddTodoVia add refresh now p) = UI.world p)
    /\ (trim (UI.taskInput p) <> "" -> UI.dateInput p <> "" ->
        In alert
          [("Task added successfully!", "success");
           ("Failed to create todo", "error");
           ("Network error or server is not running", "error")]
        \/ exists rejection,
             add = Client.Rejected rejection
             /\ alert = (UI.messageOr rejection "Failed to add task", "error")).
Proof.
  unfold UI.handleAddTodoVia.
  destruct (String.eqb_spec (trim (UI.taskInput p)) "") as [Ht|Ht];
    [simpl; eexists; split; [reflexivity|]; split; [auto|];
     intros H; now destruct H|].
  destruct (String.eqb_spec (UI.dateInput p) "") as [Hd|Hd];
    [simpl; eexists; split; [reflexivity|]; split; [auto|];
     intros _ H; now destruct H|].
  cbn [orb].
  assert (Hnot : trim (UI.taskInput p) = "" \/ UI.dateInput p = "" ->
                 forall P : Prop, P) by (intros [H|H]; contradiction).
  destruct add as [|rejection]; cbn [Client.addTodoVia].
  - destruct (addTodo_cases now (Some (JStr (trim (UI.taskInput p))))
                (Some (JStr (UI.dateInput p))) (UI.world p))
      as [(t & -> & _)|(m & -> & _ & [(_ & Hf)|(-> & _)])].
    + destruct refresh as [|rejection]; cbn [Client.getTodosVia].
      * match goal with
        | |- context [Client.getTodos ?w] =>
            destruct (refresh_cases w) as [[_ ->]|[_ ->]]
        end; simpl; eexists; (split; [reflexivity|]);
          (split; [intros H; now apply Hnot|]); intros _ _; left; simpl;
          auto.
      * simpl. eexists. split; [reflexivity|].
        split; [intros H; now apply Hnot|]. intros _ _. left. simpl. auto.
    + simpl in Hf. apply String.eqb_neq in Ht, Hd. rewrite Ht, Hd in Hf.
      destruct Hf; discriminate.
    + simpl. eexists. split; [reflexivity|].
      split; [intros H; now apply Hnot|]. intros _ _. left. simpl. auto.
  - simpl. eexists. split; [reflexivity|].
    split; [intros H; now apply Hnot|]. intros _ _. right.
    exists rejection. auto.
Qed.

(** X18.  Whatever the user does (load the page, add, toggle, delete,
    save an edit), the table is either left as it was or redrawn from the
    listing of the server that has just replaced the cache: after a redraw
    the rows, the cache and the sorted collection agree. *)
Theorem act_rows (a : UI.Action) (p : UI.Page) :
  UI.rows (UI.act a p) = UI.rows p
  \/ (UI.rows (UI.act a p) = Client.todos (UI.world (UI.act a p))
      /\ UI.rows (UI.act a p)
         = listing (Client.server (UI.world (UI.act a p)))).
Proof.
  assert (Hdraw : forall w,
            match Client.getTodos w with
            | (inr l, w') =>
                l = Client.todos w' /\ l = listing (Client.server w')
            | (inl _, _) => True
            end).
  { intros w. pose proof (refresh_draws w) as H.
    destruct (Client.getTodos w) as [[e|l] w']; [exact I|]. tauto. }
  destruct a as [|now|now id|id|now id text date]; simpl.
  - unfold UI.init. specialize (Hdraw (UI.world p)).
    destruct (Client.getTodos (UI.world p)) as [[[m]|l] w']; simpl; auto.
  - unfold UI.handleAddTodo.
    destruct ((trim (UI.taskInput p) =? "") || (UI.dateInput p =? ""));
      [now left|].
    destruct (Client.addTodo _ _ _ _) as [[e|t] w1]; [now left|].
    specialize (Hdraw w1).
    destruct (Client.getTodos w1) as [[e|l] w']; simpl; auto.
  - unfold UI.toggleStatus.
    destruct (Client.toggleTodoStatus _ _ _) as [[e|t] w1]; [now left|].
    specialize (Hdraw w1).
    destruct (Client.getTodos w1) as [[e|l] w']; simpl; auto.
  - unfold UI.deleteTask.
    destruct (Client.deleteTodo _ _) as [[e|t] w1]; [now left|].
    specialize (Hdraw w1).
    destruct (Client.getTodos w1) as [[e|l] w']; simpl; auto.
  - unfold UI.saveEdit, UI.handleEditTodo.
    destruct ((trim text =? "") || (date =? "")); [now left|].
    destruct (Client.editTodo _ _ _ _ _) as [[e|t] w1]; [now left|].
    specialize (Hdraw w1).
    destruct (Client.getTodos w1) as [[e|l] w']; simpl; auto.
Qed.

End Page.

(** ** The statements at concrete requests *)

#[local] Existing Instance Sample.runtime.

Ltac wf_by_computation :=
  split; simpl;
  [ repeat (constructor; [simpl; intuition discriminate|]); constructor
  | repeat constructor ].

Lemma getTodos_sorted_witness :
  exists out,
    fst (getTodos Sample.two) = res 200 (TodoList out)
    /\ Permutation (todos Sample.two) out
    /\ forall i j a b,
         i < j -> nth_error out i = Some a -> nth_error out j = Some b ->
         (dueDate a <= dueDate b)%Z
         /\ (dueDate a = dueDate b -> (createdAt b <= createdAt a)%Z).
Proof. apply (getTodos_sorted Sample.two). reflexivity. Defined.

Lemma postTodo_then_getTodos_witness :
  wf Sample.two
  /\ fst (postTodo 1736200000000 (Sample.post " Buy bread " "2025-01-11")
            Sample.two)
     = res 201 (TodoDoc {| _id := 3; task := "Buy bread";
                           dueDate := 1736553600000; status := "pending";
                           createdAt := 1736200000000;
                           updatedAt := 1736200000000 |}).
Proof.
  split; [wf_by_computation|].
  apply (postTodo_then_getTodos 1736200000000
           (Sample.post " Buy bread " "2025-01-11") Sample.two
           " Buy bread " 1736553600000);
    try reflexivity; [wf_by_computation | discriminate].
Defined.

(** C1, as stated, fails when a record with the same task and due date is
    already stored: after the create the listing has two such records, and
    the older one is not pending. *)
Lemma postTodo_duplicate_task :
  let s1 := snd (postTodo 1736200000000 (Sample.post "Buy milk" "2025-01-10")
                   Sample.two) in
  wf Sample.two
  /\ exists out,
       fst (getTodos s1) = res 200 (TodoList out)
       /\ List.length (filter (matches "Buy milk" 1736467200000) out) = 2
       /\ In Sample.buyMilk out
       /\ status Sample.buyMilk = "completed".
Proof.
  split; [wf_by_computation|].
  eexists. split; [reflexivity|]. simpl.
  repeat split. do 2 right. now left.
Qed.

Lemma deleteTodo_stored_witness :
  fst (deleteTodo Sample.oid1 Sample.two)
  = res 200 (Deleted "Todo deleted successfully" Sample.buyMilk)
  /\ exists out,
       fst (getTodos (snd (deleteTodo Sample.oid1 Sample.two)))
       = res 200 (TodoList out)
       /\ absent 1 out
       /\ Permutation (todos Sample.two) (Sample.buyMilk :: out).
Proof.
  apply (deleteTodo_stored Sample.oid1 1 Sample.buyMilk Sample.two);
    try reflexivity; [wf_by_computation | simpl; auto].
Defined.

Lemma putTodo_partial_update_witness :
  exists l1 t l2,
    todos Sample.two = l1 ++ t :: l2
    /\ absent (_id t) l1
    /\ castObjectId Sample.oid1 = Some (_id t)
    /\ todos (snd (putTodo 1736300000000 Sample.oid1
                     (Sample.setStatus "pending") Sample.two))
       = l1 ++ applyUpdate 1736300000000 None None (Some "pending")
                 Sample.buyMilk :: l2
    /\ _id (applyUpdate 1736300000000 None None (Some "pending")
              Sample.buyMilk) = _id t.
Proof.
  destruct (putTodo_partial_update 1736300000000 Sample.oid1
              (Sample.setStatus "pending") Sample.two
              (applyUpdate 1736300000000 None None (Some "pending")
                 Sample.buyMilk))
    as (l1 & t & l2 & H1 & H2 & H3 & H4 & H5 & _); [reflexivity|].
  exists l1, t, l2. auto.
Defined.

Lemma invalid_or_unknown_id_witness :
  (putTodo 0 "milk" (Sample.setStatus "completed") Sample.two
   = (res 400 (Message "Invalid todo ID format"), Sample.two)
   /\ deleteTodo "milk" (Sample.offline "connection refused")
      = (res 400 (Message "Invalid todo ID format"),
         Sample.offline "connection refused"))
  /\ fst (deleteTodo Sample.oid9 Sample.two)
     = res 404 (Message "Todo not found")
  /\ fst (putTodo 0 Sample.oid9 (Sample.setStatus "completed") Sample.two)
     = res 404 (Message "Todo not found").
Proof.
  assert (Habs : absent 9 (todos Sample.two)).
  { intros t [<-|[<-|[]]]; discriminate. }
  destruct (invalid_or_unknown_id 0 "milk" (Sample.setStatus "completed")
              Sample.two) as [H1 _].
  destruct (invalid_or_unknown_id 0 "milk" (Sample.setStatus "completed")
              (Sample.offline "connection refused")) as [H2 _].
  destruct (invalid_or_unknown_id 0 Sample.oid9
              (Sample.setStatus "completed") Sample.two) as [_ H3].
  destruct (H3 9 eq_refl Habs eq_refl) as (H4 & _ & H5).
  split; [split; [apply H1 | apply H2]; reflexivity|].
  split; [exact H4|].
  apply H5. apply acceptable_statusOnly. reflexivity.
Defined.

(** C5, as stated, fails for PUT: a well-formed id that no record has is
    answered 400, not 404, when the status is not of the enumeration. *)
Lemma putTodo_unknown_id_invalid_status :
  castObjectId Sample.oid9 = Some 9
  /\ absent 9 (todos Sample.two)
  /\ fst (putTodo 0 Sample.oid9 (Sample.setStatus "archived") Sample.two)
     = res 400 (Message "Invalid status value").
Proof.
  split; [reflexivity|]. split; [|reflexivity].
  intros t [<-|[<-|[]]]; discriminate.
Qed.





Lemma postTodo_blank_task_witness :
  trim "   " = ""
  /\ statusCode (fst (postTodo 0 (Sample.post "   " "2025-01-10") Sample.two))
     = 500
  /\ todos (snd (postTodo 0 (Sample.post "   " "2025-01-10") Sample.two))
     = todos Sample.two.
Proof.
  split; [reflexivity|].
  apply (postTodo_blank_task 0 (Sample.post "   " "2025-01-10") Sample.two
           "   "); try reflexivity. discriminate.
Defined.

Lemma handlers_send_error_message_witness :
  fst (postTodo 0 (Sample.post "Buy bread" "2025-01-11")
         (Sample.offline "connection refused"))
  = res 500 (Failed "Failed to create todo"
               (Some (MongoError "connection refused")))
  /\ errorMiddleware (Some "production") (MongoError "connection refused")
     = res 500 (Failed "Internal server error" None).
Proof.
  destruct (handlers_send_error_message 0 Sample.oid1 "connection refused"
              "Buy bread" 1 1736553600000
              (Sample.post "Buy bread" "2025-01-11")
              (Sample.setStatus "completed")
              (Sample.offline "connection refused"))
    as (_ & H2 & _ & _ & H5); try reflexivity.
  - discriminate.
  - apply acceptable_statusOnly. reflexivity.
  - split; [exact H2|]. apply H5. discriminate.
Defined.


(** *** Further statements at concrete requests *)

#[local] Existing Instance Sample.errorText.

Lemma route_error_keeps_collection_witness :
  Client.ok (fst (route (PUT_todos 0 Sample.oid1 (Sample.setStatus "archived"))
                    Sample.two)) = false
  /\ todos (snd (route (PUT_todos 0 Sample.oid1 (Sample.setStatus "archived"))
                   Sample.two)) = todos Sample.two.
Proof.
  split; [reflexivity|].
  apply (route_error_keeps_collection
           (PUT_todos 0 Sample.oid1 (Sample.setStatus "archived")) Sample.two).
  reflexivity.
Defined.

Lemma postTodo_task_not_a_string_witness :
  fst (postTodo 0 Sample.numberedTask Sample.two)
  = res 500 (Failed "Failed to create todo" (Some TypeError))
  /\ snd (postTodo 0 Sample.numberedTask Sample.two) = Sample.two.
Proof.
  apply (postTodo_task_not_a_string 0 Sample.numberedTask Sample.two);
    try reflexivity.
  intros x. discriminate.
Defined.

Lemma clean_afterAll_witness :
  clean Sample.two /\ clean (afterAll Sample.morning Sample.two).
Proof.
  assert (H : clean Sample.two).
  { repeat constructor; simpl; discriminate. }
  split; [exact H|].
  apply (clean_afterAll Sample.morning Sample.two H).
Defined.

Lemma deleteTodo_twice_witness :
  fst (deleteTodo Sample.oid1 (snd (deleteTodo Sample.oid1 Sample.two)))
  = res 404 (Message "Todo not found")
  /\ todos (snd (deleteTodo Sample.oid1
                   (snd (deleteTodo Sample.oid1 Sample.two))))
     = todos (snd (deleteTodo Sample.oid1 Sample.two))
  /\ fst (putTodo 0 Sample.oid1 (Sample.setStatus "completed")
            (snd (deleteTodo Sample.oid1 Sample.two)))
     = res 404 (Message "Todo not found").
Proof.
  apply (deleteTodo_twice 0 Sample.oid1 1 Sample.buyMilk
           (Sample.setStatus "completed") Sample.two);
    try reflexivity;
    [wf_by_computation | simpl; auto
    | apply acceptable_statusOnly; reflexivity].
Defined.

Lemma putTodo_then_getTodos_witness :
  exists out,
    fst (getTodos (snd (putTodo 1736300000000 Sample.oid1
                          (Sample.setStatus "pending") Sample.two)))
    = res 200 (TodoList out)
    /\ filter (hasId 1) out
       = [applyUpdate 1736300000000 None None (Some "pending") Sample.buyMilk].
Proof.
  apply (putTodo_then_getTodos 1736300000000 Sample.oid1
           (Sample.setStatus "pending") Sample.two
           (applyUpdate 1736300000000 None None (Some "pending")
              Sample.buyMilk));
    [wf_by_computation | reflexivity].
Defined.

Lemma putTodo_again_witness :
  fst (putTodo 20 Sample.oid1 (Sample.setStatus "pending")
         (snd (putTodo 10 Sample.oid1 (Sample.setStatus "pending")
                 Sample.two)))
  = res 200 (TodoDoc (touched 20 (applyUpdate 10 None None (Some "pending")
                                    Sample.buyMilk))).
Proof.
  apply (putTodo_again 10 20 Sample.oid1 (Sample.setStatus "pending")
           Sample.two). reflexivity.
Defined.

Lemma putTodo_stored_witness :
  fst (putTodo 10 Sample.oid1 (Sample.setStatus "pending") Sample.two)
  = res 200 (TodoDoc (updateOf 10 (Sample.setStatus "pending") Sample.buyMilk))
  /\ fst (putTodo 10 Sample.oid1 emptyBody Sample.two)
     = res 200 (TodoDoc (touched 10 Sample.buyMilk)).
Proof.
  apply (putTodo_stored 10 Sample.oid1 1 Sample.buyMilk
           (Sample.setStatus "pending") Sample.two);
    try reflexivity;
    [wf_by_computation | simpl; auto
    | apply acceptable_statusOnly; reflexivity].
Defined.


Lemma handleAddTodo_adds_witness :
  UI.taskInput (UI.handleAddTodo 1736200000000 Sample.form) = ""
  /\ UI.alerts (UI.handleAddTodo 1736200000000 Sample.form)
     = [("Task added successfully!", "success")].
Proof.
  destruct (handleAddTodo_adds 1736200000000 Sample.form 1736553600000)
    as (_ & H2 & _ & _ & _ & H6); try reflexivity; try discriminate.
  split; [exact H2 | exact H6].
Defined.

Lemma route_keeps_createdAt_witness :
  In Sample.callMum
     (todos (snd (route (DELETE_todos Sample.oid1) Sample.two)))
  /\ ((exists t, In t (todos Sample.two) /\ _id t = 2
                 /\ createdAt t = 1736100000000%Z)
      \/ exists now b,
           DELETE_todos Sample.oid1 = POST_todos now b
           /\ _id Sample.callMum = nextId Sample.two
           /\ createdAt Sample.callMum = now).
Proof.
  assert (H : In Sample.callMum
                (todos (snd (route (DELETE_todos Sample.oid1) Sample.two)))).
  { vm_compute. auto. }
  split; [exact H|].
  apply (route_keeps_createdAt (DELETE_todos Sample.oid1) Sample.two
           Sample.callMum H).
Defined.

